(** * The request/response runtime of python-apmecclient (apmecclient/v1_0/client.py)

    A shallow embedding of [ClientBase] and of the pieces of [Client] it
    relies on: [do_request], [retry_request], [get]/[post]/[put]/[delete],
    [list]/[_pagination], [deserialize], [get_attr_metadata],
    [_handle_fault_response], [exception_handler_v10] and the
    [APIParamsCall] decorator.

    Python values that cross the wire are modelled by [val]; the client
    object ([self]) and the server side of the HTTP transport are an explicit
    state threaded through a small state/exception monad. *)

From Stdlib Require Import String Ascii List ZArith Bool Lia.
Import ListNotations.
Open Scope string_scope.
#[local] Set Warnings "-register-all".

(** The double-quote character, written by its code. *)
Definition dquote : ascii := "034"%char.

(** [s] between double quotes. *)
Definition quoted (s : string) : string := String dquote (s ++ String dquote EmptyString).

(** ** Python values *)

(** The values a deserialized JSON body can contain.  A str is kept as its
    UTF-8 bytes (see [utf8_chars]); a float as the JSON text it was read
    from (a number with a fraction or an exponent, [NaN], [Infinity] or
    [-Infinity]), whose value is given by [to_double]; dict entries keep
    insertion order, as Python dicts. *)
Inductive val : Type :=
| VNull : val
| VBool (b : bool) : val
| VInt (z : Z) : val
| VFloat (lexeme : string) : val
| VStr (s : string) : val
| VList (l : list val) : val
| VDict (kvs : list (string * val)) : val.

Fixpoint assoc {A} (k : string) (kvs : list (string * A)) : option A :=
  match kvs with
  | [] => None
  | (k', v) :: rest => if String.eqb k k' then Some v else assoc k rest
  end.

(** [d[k] = v] on a Python dict: overwrite in place, or append. *)
Fixpoint dict_set {A} (k : string) (v : A) (kvs : list (string * A))
  : list (string * A) :=
  match kvs with
  | [] => [(k, v)]
  | (k', v') :: rest =>
      if String.eqb k k' then (k', v) :: rest else (k', v') :: dict_set k v rest
  end.

(** ** Decimal rendering (Python [%d] / [str] of an int) *)

Fixpoint digits_aux (fuel : nat) (n : Z) (acc : string) : string :=
  match fuel with
  | O => acc
  | S f =>
      let acc' := String (ascii_of_nat (48 + Z.to_nat (Z.modulo n 10))) acc in
      if Z.eqb (Z.div n 10) 0 then acc' else digits_aux f (Z.div n 10) acc'
  end.

Definition z_to_string (z : Z) : string :=
  let fuel := S (Z.to_nat (Z.log2 (Z.abs z))) in
  if Z.ltb z 0 then "-" ++ digits_aux fuel (Z.abs z) ""
  else digits_aux fuel z "".

Definition nat_to_string (n : nat) : string := z_to_string (Z.of_nat n).

Definition is_digit (c : ascii) : bool :=
  Nat.leb 48 (nat_of_ascii c) && Nat.leb (nat_of_ascii c) 57.

Fixpoint take_digits (s : string) : list ascii * string :=
  match s with
  | String c r =>
      if is_digit c then let '(ds, r') := take_digits r in (c :: ds, r')
      else ([], s)
  | EmptyString => ([], s)
  end.

Definition digits_value (ds : list ascii) : Z :=
  fold_left (fun acc d => acc * 10 + Z.of_nat (nat_of_ascii d - 48))%Z ds 0%Z.

(** ** Python str

    A str is kept as its UTF-8 encoding; a lone surrogate, which
    [json.loads] produces from an unpaired [\u] escape, is encoded with
    three bytes like any other code point below 65536.  A character is a
    byte followed by the continuation bytes (128 to 191) after it. *)

Definition byte_val (c : ascii) : Z := Z.of_nat (nat_of_ascii c).

Definition byte (z : Z) : ascii := ascii_of_nat (Z.to_nat z).

Definition is_cont (c : ascii) : bool :=
  Nat.leb 128 (nat_of_ascii c) && Nat.ltb (nat_of_ascii c) 192.

(** The characters of a str, each as its bytes. *)
Fixpoint utf8_chars (s : string) : list string :=
  match s with
  | EmptyString => []
  | String c r =>
      match utf8_chars r with
      | String d g :: gs =>
          if is_cont d then String c (String d g) :: gs
          else String c EmptyString :: String d g :: gs
      | gs => String c EmptyString :: gs
      end
  end.

(** [len(s)]. *)
Definition str_len (s : string) : nat := length (utf8_chars s).

(** [s[:n]]. *)
Definition str_prefix (n : nat) (s : string) : string :=
  fold_right String.append "" (firstn n (utf8_chars s)).

Section Utf8.
Local Open Scope Z_scope.

(** The code point of one character. *)
Definition utf8_decode (g : string) : Z :=
  match list_ascii_of_string g with
  | [] => 0
  | [b] => byte_val b
  | [b; x] => (byte_val b - 192) * 64 + (byte_val x - 128)
  | [b; x; y] => ((byte_val b - 224) * 64 + (byte_val x - 128)) * 64 + (byte_val y - 128)
  | b :: x :: y :: z :: _ =>
      (((byte_val b - 240) * 64 + (byte_val x - 128)) * 64 + (byte_val y - 128)) * 64
      + (byte_val z - 128)
  end.

(** The bytes of the code point [cp]. *)
Definition utf8_encode (cp : Z) : list ascii :=
  if cp <? 128 then [byte cp]
  else if cp <? 2048 then [byte (192 + cp / 64); byte (128 + cp mod 64)]
  else if cp <? 65536 then
    [byte (224 + cp / 4096); byte (128 + (cp / 64) mod 64); byte (128 + cp mod 64)]
  else
    [byte (240 + cp / 262144); byte (128 + (cp / 4096) mod 64);
     byte (128 + (cp / 64) mod 64); byte (128 + cp mod 64)].

End Utf8.

(** ** Python floats

    [float(text)] is the IEEE 754 double nearest to the decimal value of the
    text, ties to even (CPython's correctly rounded [_Py_dg_strtod]); [repr]
    of a double is the shortest decimal that reads back as it
    ([_Py_dg_dtoa] mode 0), laid out by [format_float_short] with mode
    ['r']. *)

Section Floats.
Local Open Scope Z_scope.

(** [(-1)^neg * mant * 2^ex] with [0 <= mant < 2^53] and
    [-1074 <= ex <= 971], an infinity, or NaN. *)
Inductive double : Type :=
| DFinite (neg : bool) (mant ex : Z)
| DInf (neg : bool)
| DNaN.

(** [num / den] rounded to an integer, ties to even. *)
Definition round_half_even (num den : Z) : Z :=
  let q := num / den in
  match Z.compare (2 * (num mod den)) den with
  | Lt => q
  | Gt => q + 1
  | Eq => if Z.even q then q else q + 1
  end.

(** [2^k <= num / den]. *)
Definition pow2_le (k num den : Z) : bool :=
  if 0 <=? k then den * 2 ^ k <=? num else den <=? num * 2 ^ (- k).

(** The magnitude [(mant, ex)] of the double nearest to [m * 10^e]
    ([m >= 0]), or [None] when it overflows.  A value of 10^310 or more
    overflows and one below 10^-325 is a zero, which spares the exact
    computation for long exponents. *)
Definition round_decimal (m e : Z) : option (Z * Z) :=
  let nd := Z.of_nat (String.length (z_to_string m)) in
  if m =? 0 then Some (0, -1074)
  else if 310 <? nd + e then None
  else if nd + e <? -324 then Some (0, -1074)
  else
    let num := m * 10 ^ Z.max e 0 in
    let den := 10 ^ Z.max (- e) 0 in
    let k0 := Z.log2 num - Z.log2 den in
    let k := if pow2_le k0 num den then k0 else k0 - 1 in
    let ex := Z.max (k - 52) (-1074) in
    let mant := round_half_even (num * 2 ^ Z.max (- ex) 0) (den * 2 ^ Z.max ex 0) in
    let '(mant', ex') := if mant =? 2 ^ 53 then (2 ^ 52, ex + 1) else (mant, ex) in
    if 971 <? ex' then None else Some (mant', ex').

(** The sign, digits and exponent of a JSON number text: [(neg, m, e)] for
    the value [(-1)^neg * m * 10^e]. *)
Definition decimal_of_lexeme (s : string) : option (bool * Z * Z) :=
  let '(neg, s1) :=
    match s with
    | String c r => if Ascii.eqb c "-"%char then (true, r) else (false, s)
    | EmptyString => (false, s)
    end in
  let '(ids, r1) := take_digits s1 in
  let '(fds, r2) :=
    match r1 with
    | String c r => if Ascii.eqb c "."%char then take_digits r else ([], r1)
    | EmptyString => ([], r1)
    end in
  let ex :=
    match r2 with
    | EmptyString => Some 0
    | String c r =>
        if Ascii.eqb c "e"%char || Ascii.eqb c "E"%char then
          match r with
          | String sg r' =>
              if Ascii.eqb sg "-"%char then Some (- digits_value (fst (take_digits r')))
              else if Ascii.eqb sg "+"%char then Some (digits_value (fst (take_digits r')))
              else Some (digits_value (fst (take_digits r)))
          | EmptyString => None
          end
        else None
    end in
  match ids, ex with
  | _ :: _, Some x => Some (neg, digits_value (app ids fds), x - Z.of_nat (length fds))
  | _, _ => None
  end.

(** [float(text)] of the text of a float. *)
Definition to_double (s : string) : double :=
  if String.eqb s "NaN" then DNaN
  else if String.eqb s "Infinity" then DInf false
  else if String.eqb s "-Infinity" then DInf true
  else
    match decimal_of_lexeme s with
    | Some (neg, m, e) =>
        match round_decimal m e with
        | Some (mant, ex) => DFinite neg mant ex
        | None => DInf neg
        end
    | None => DNaN
    end.

(** The decimals [c * 10^p] that read back as the double of magnitude
    [mant * 2^ex] ([mant > 0]): [Some c] for the one closest to it (the
    even one of two equally close), [None] when there is none.  Reading
    back rounds to nearest, ties to even, so the bounds, halfway to the
    neighbouring doubles, count when [mant] is even.  Everything is scaled
    to integers in units of [2^(ex-2)]: the double is [v], the bounds [lo]
    and [hi] (the gap below is halved at a power of two), and [c * 10^p]
    compares to them as [c * A] to [_ * B]. *)
Definition candidate_at (mant ex p : Z) : option Z :=
  let s := ex - 2 in
  let v := 4 * mant in
  let lo := if (mant =? 2 ^ 52) && (-1074 <? ex) then v - 1 else v - 2 in
  let hi := v + 2 in
  let A := 10 ^ Z.max p 0 * 2 ^ Z.max (- s) 0 in
  let B := 10 ^ Z.max (- p) 0 * 2 ^ Z.max s 0 in
  let incl := Z.even mant in
  let c_lo := if incl then - ((- (lo * B)) / A) else (lo * B) / A + 1 in
  let c_hi := if incl then (hi * B) / A else - ((- (hi * B)) / A) - 1 in
  let q := (v * B) / A in
  let inside c := (c_lo <=? c) && (c <=? c_hi) in
  if inside q && inside (q + 1) then Some (round_half_even (v * B) A)
  else if inside q then Some q
  else if inside (q + 1) then Some (q + 1)
  else None.

(** The candidates at the largest [p] from [p] down: at [p = min ex 0] the
    double itself is one, so the fuel below never runs out; the fallback is
    its exact decimal. *)
Fixpoint shortest_from (fuel : nat) (mant ex p : Z) : Z * Z :=
  match fuel with
  | O => if 0 <=? ex then (mant * 2 ^ ex, 0) else (mant * 5 ^ (- ex), ex)
  | S f =>
      match candidate_at mant ex p with
      | Some c => (c, p)
      | None => shortest_from f mant ex (p - 1)
      end
  end.

(** The digits [c] and exponent [p] of the shortest decimal [c * 10^p] that
    reads back as [mant * 2^ex].  The search starts above [log10] of the
    upper bound, which is below [2^(ex+53)]. *)
Definition shortest_decimal (mant ex : Z) : Z * Z :=
  let n := ex + 55 in
  let pstart := if 0 <=? n then n / 3 + 1 else (3 * n) / 10 + 1 in
  shortest_from (Z.to_nat (pstart - Z.min ex 0 + 1)) mant ex pstart.

Fixpoint zeros (k : nat) : string :=
  match k with
  | O => ""
  | S k' => String "0"%char (zeros k')
  end.

(** The digits [ds] with the decimal point at [decpt] ([0.ds * 10^decpt]),
    as [format_float_short] lays them out for [repr]: exponent notation
    when [decpt <= -4] or [decpt > 16], with a sign and at least two
    exponent digits; otherwise positional, with [.0] after an integer. *)
Definition format_repr (ds : string) (decpt : Z) : string :=
  let n := Z.of_nat (String.length ds) in
  if (decpt <=? -4) || (16 <? decpt) then
    let x := decpt - 1 in
    substring 0 1 ds
    ++ (if 1 <? n then "." ++ substring 1 (Nat.pred (String.length ds)) ds else "")
    ++ "e" ++ (if x <? 0 then "-" else "+")
    ++ (if Z.abs x <? 10 then "0" else "") ++ z_to_string (Z.abs x)
  else if decpt <=? 0 then "0." ++ zeros (Z.to_nat (- decpt)) ++ ds
  else if n <=? decpt then ds ++ zeros (Z.to_nat (decpt - n)) ++ ".0"
  else substring 0 (Z.to_nat decpt) ds ++ "."
       ++ substring (Z.to_nat decpt) (Z.to_nat (n - decpt)) ds.

(** [repr(x)] of a double. *)
Definition float_repr (d : double) : string :=
  match d with
  | DNaN => "nan"
  | DInf neg => if neg then "-inf" else "inf"
  | DFinite neg mant ex =>
      (if neg then "-" else "")
      ++ (if mant =? 0 then "0.0"
          else
            let '(c, p) := shortest_decimal mant ex in
            let ds := z_to_string c in
            format_repr ds (Z.of_nat (String.length ds) + p))
  end.

Definition float_is_zero (d : double) : bool :=
  match d with
  | DFinite _ mant _ => mant =? 0
  | _ => false
  end.

End Floats.

(** Python truthiness ([if x:]). *)
Definition truthy (v : val) : bool :=
  match v with
  | VNull => false
  | VBool b => b
  | VInt z => negb (Z.eqb z 0)
  | VFloat s => negb (float_is_zero (to_double s))
  | VStr s => negb (String.eqb s "")
  | VList l => negb (Nat.eqb (length l) 0)
  | VDict kvs => negb (Nat.eqb (length kvs) 0)
  end.

(** ** [repr] and [str]

    [repr] of a str follows CPython's [unicode_repr]; whether a character
    beyond Latin-1 is printable is a property of the Unicode database of the
    Python runtime, passed as [isp] (see [unicode_isprintable]). *)

Section Repr.
Local Open Scope Z_scope.

Definition hex_lower (n : Z) : ascii :=
  match String.get (Z.to_nat n) "0123456789abcdef" with Some c => c | None => "0"%char end.

(** [n] as [k] lowercase hex digits. *)
Fixpoint hex_pad (k : nat) (n : Z) : string :=
  match k with
  | O => ""
  | S k' => hex_pad k' (n / 16) ++ String (hex_lower (n mod 16)) ""
  end.

(** [Py_UNICODE_ISPRINTABLE] of a code point from 128 on: below 256 the C1
    controls, the no-break space and the soft hyphen are not printable. *)
Definition printable (isp : Z -> bool) (cp : Z) : bool :=
  if cp <? 256 then negb ((cp <? 161) || (cp =? 173)) else isp cp.

(** One character [g] of a str inside its [repr] quoted with [q]. *)
Definition repr_char (isp : Z -> bool) (q : ascii) (g : string) : string :=
  let cp := utf8_decode g in
  if (cp =? byte_val q) || (cp =? 92) then String "\"%char g
  else if cp =? 9 then "\t"
  else if cp =? 10 then "\n"
  else if cp =? 13 then "\r"
  else if (cp <? 32) || (cp =? 127) then "\x" ++ hex_pad 2 cp
  else if cp <? 127 then g
  else if printable isp cp then g
  else if cp <=? 255 then "\x" ++ hex_pad 2 cp
  else if cp <=? 65535 then "\u" ++ hex_pad 4 cp
  else "\U" ++ hex_pad 8 cp.

(** [repr] of a str: in double quotes when it contains a single quote and
    no double quote, in single quotes otherwise. *)
Definition py_repr_str (isp : Z -> bool) (s : string) : string :=
  let has c := existsb (Ascii.eqb c) (list_ascii_of_string s) in
  let q := if has "'"%char && negb (has dquote) then dquote else "'"%char in
  String q (String.concat "" (map (repr_char isp q) (utf8_chars s)) ++ String q "").

End Repr.

(** Python [repr(v)]. *)
Fixpoint py_repr (isp : Z -> bool) (v : val) : string :=
  match v with
  | VNull => "None"
  | VBool true => "True"
  | VBool false => "False"
  | VInt z => z_to_string z
  | VFloat s => float_repr (to_double s)
  | VStr s => py_repr_str isp s
  | VList l => "[" ++ String.concat ", " (map (py_repr isp) l) ++ "]"
  | VDict kvs =>
      "{" ++ String.concat ", "
        (map (fun '(k, v) => py_repr_str isp k ++ ": " ++ py_repr isp v) kvs) ++ "}"
  end.

(** Python [str(v)] / ["%s" % v]: a str is rendered as itself, everything
    else as its [repr]. *)
Definition py_str (isp : Z -> bool) (v : val) : string :=
  match v with
  | VStr s => s
  | _ => py_repr isp v
  end.

(** ** JSON deserialization

    Modelled from the spec: the JSON side of [apmecclient.common.serializer]
    (not in src), whose [JSONDeserializer] returns [{'body': json.loads(s)}]
    and turns the [ValueError] of [json.loads] into [MalformedResponseBody].
    [json_loads] follows the grammar accepted by Python's [json.loads]:
    whitespace, [null]/[true]/[false], [NaN]/[Infinity]/[-Infinity], numbers,
    strings with escapes (a [\u] escape gives its code point, a high and a
    low surrogate escape in a row give the code point of the pair), arrays
    and objects (a repeated key overwrites the earlier value in place). *)

Definition is_ws (c : ascii) : bool :=
  Ascii.eqb c " "%char || Ascii.eqb c (ascii_of_nat 9)
  || Ascii.eqb c (ascii_of_nat 10) || Ascii.eqb c (ascii_of_nat 13).

Fixpoint skip_ws (s : string) : string :=
  match s with
  | String c r => if is_ws c then skip_ws r else s
  | EmptyString => s
  end.

Definition hexval (c : ascii) : option nat :=
  let n := nat_of_ascii c in
  if (Nat.leb 48 n) && (Nat.leb n 57) then Some (n - 48)
  else if (Nat.leb 97 n) && (Nat.leb n 102) then Some (n - 87)
  else if (Nat.leb 65 n) && (Nat.leb n 70) then Some (n - 55)
  else None.

(** Four hex digits. *)
Definition hex4 (h1 h2 h3 h4 : ascii) : option Z :=
  match hexval h1, hexval h2, hexval h3, hexval h4 with
  | Some a, Some b, Some c, Some d =>
      Some (Z.of_nat a * 4096 + Z.of_nat b * 256 + Z.of_nat c * 16 + Z.of_nat d)%Z
  | _, _, _, _ => None
  end.

Fixpoint strip_prefix (p s : string) : option string :=
  match p, s with
  | EmptyString, _ => Some s
  | String a p', String b s' => if Ascii.eqb a b then strip_prefix p' s' else None
  | _, _ => None
  end.

(** The body of a string literal, after its opening quote; [acc] holds the
    bytes read so far, last first. *)
Fixpoint scan_string (s : string) (acc : list ascii) : option (string * string) :=
  match s with
  | EmptyString => None
  | String c r =>
      if Ascii.eqb c dquote then Some (string_of_list_ascii (rev acc), r)
      else if Ascii.eqb c "\"%char then
        match r with
        | String e r' =>
            if Ascii.eqb e dquote then scan_string r' (e :: acc)
            else if Ascii.eqb e "\"%char then scan_string r' (e :: acc)
            else if Ascii.eqb e "/"%char then scan_string r' (e :: acc)
            else if Ascii.eqb e "b"%char then scan_string r' (ascii_of_nat 8 :: acc)
            else if Ascii.eqb e "f"%char then scan_string r' (ascii_of_nat 12 :: acc)
            else if Ascii.eqb e "n"%char then scan_string r' (ascii_of_nat 10 :: acc)
            else if Ascii.eqb e "r"%char then scan_string r' (ascii_of_nat 13 :: acc)
            else if Ascii.eqb e "t"%char then scan_string r' (ascii_of_nat 9 :: acc)
            else if Ascii.eqb e "u"%char then
              match r' with
              | String h1 (String h2 (String h3 (String h4 r''))) =>
                  match hex4 h1 h2 h3 h4 with
                  | None => None
                  | Some code =>
                      if (55296 <=? code)%Z && (code <=? 56319)%Z then
                        match r'' with
                        | String b (String u (String k1 (String k2 (String k3 (String k4 r3))))) =>
                            if Ascii.eqb b "\"%char && Ascii.eqb u "u"%char then
                              match hex4 k1 k2 k3 k4 with
                              | Some low =>
                                  if (56320 <=? low)%Z && (low <=? 57343)%Z then
                                    scan_string r3
                                      (app (rev (utf8_encode
                                         (65536 + (code - 55296) * 1024 + (low - 56320))%Z))
                                         acc)
                                  else scan_string r'' (app (rev (utf8_encode code)) acc)
                              | None => scan_string r'' (app (rev (utf8_encode code)) acc)
                              end
                            else scan_string r'' (app (rev (utf8_encode code)) acc)
                        | _ => scan_string r'' (app (rev (utf8_encode code)) acc)
                        end
                      else scan_string r'' (app (rev (utf8_encode code)) acc)
                  end
              | _ => None
              end
            else None
        | EmptyString => None
        end
      else if Nat.ltb (nat_of_ascii c) 32 then None
      else scan_string r (c :: acc)
  end.

(** Python's [NUMBER_RE]: [(-?(?:0|[1-9]\d* ))(\.\d+)?([eE][-+]?\d+)?]. *)
Definition scan_number (s : string) : option (val * string) :=
  let '(neg, s1) :=
    match s with
    | String c r => if Ascii.eqb c "-"%char then (true, r) else (false, s)
    | EmptyString => (false, s)
    end in
  let int_part :=
    match s1 with
    | String c r =>
        if Ascii.eqb c "0"%char then Some ([c], r)
        else if is_digit c then let '(ds, r') := take_digits r in Some (c :: ds, r')
        else None
    | EmptyString => None
    end in
  match int_part with
  | None => None
  | Some (ids, r1) =>
      let '(frac, r2) :=
        match r1 with
        | String c r =>
            if Ascii.eqb c "."%char then
              match take_digits r with
              | ([], _) => (false, r1)
              | (_, r') => (true, r')
              end
            else (false, r1)
        | EmptyString => (false, r1)
        end in
      let '(expo, r3) :=
        match r2 with
        | String c r =>
            if Ascii.eqb c "e"%char || Ascii.eqb c "E"%char then
              let r0 := match r with
                        | String sg r' =>
                            if Ascii.eqb sg "+"%char || Ascii.eqb sg "-"%char
                            then r' else r
                        | EmptyString => r
                        end in
              match take_digits r0 with
              | ([], _) => (false, r2)
              | (_, r') => (true, r')
              end
            else (false, r2)
        | EmptyString => (false, r2)
        end in
      if frac || expo then
        Some (VFloat (substring 0 (String.length s - String.length r3) s), r3)
      else
        let z := digits_value ids in
        Some (VInt (if neg then Z.opp z else z), r3)
  end.

(** One JSON value after optional whitespace; [n] bounds the nesting depth
    and the length of each array or object. *)
Fixpoint scan_value (n : nat) (s : string) {struct n} : option (val * string) :=
  match n with
  | O => None
  | S n' =>
      let fix scan_array (m : nat) (s : string) (acc : list val)
        : option (val * string) :=
        match m with
        | O => None
        | S m' =>
            match scan_value n' s with
            | None => None
            | Some (v, r) =>
                match skip_ws r with
                | String c r2 =>
                    if Ascii.eqb c ","%char then scan_array m' r2 (v :: acc)
                    else if Ascii.eqb c "]"%char then Some (VList (rev (v :: acc)), r2)
                    else None
                | EmptyString => None
                end
            end
        end in
      let fix scan_object (m : nat) (s : string) (acc : list (string * val))
        : option (val * string) :=
        match m with
        | O => None
        | S m' =>
            match skip_ws s with
            | String q r =>
                if Ascii.eqb q dquote then
                  match scan_string r [] with
                  | None => None
                  | Some (k, r1) =>
                      match skip_ws r1 with
                      | String colon r2 =>
                          if Ascii.eqb colon ":"%char then
                            match scan_value n' r2 with
                            | None => None
                            | Some (v, r3) =>
                                let acc' := dict_set k v acc in
                                match skip_ws r3 with
                                | String c r4 =>
                                    if Ascii.eqb c ","%char then scan_object m' r4 acc'
                                    else if Ascii.eqb c "}"%char then Some (VDict acc', r4)
                                    else None
                                | EmptyString => None
                                end
                            end
                          else None
                      | EmptyString => None
                      end
                  end
                else None
            | EmptyString => None
            end
        end in
      let s := skip_ws s in
      match s with
      | EmptyString => None
      | String c r =>
          if Ascii.eqb c dquote then
            match scan_string r [] with
            | Some (str, rest) => Some (VStr str, rest)
            | None => None
            end
          else if Ascii.eqb c "["%char then
            match skip_ws r with
            | String c' r' =>
                if Ascii.eqb c' "]"%char then Some (VList [], r')
                else scan_array n' r []
            | EmptyString => None
            end
          else if Ascii.eqb c "{"%char then
            match skip_ws r with
            | String c' r' =>
                if Ascii.eqb c' "}"%char then Some (VDict [], r')
                else scan_object n' r []
            | EmptyString => None
            end
          else if Ascii.eqb c "n"%char then
            option_map (fun r' => (VNull, r')) (strip_prefix "ull" r)
          else if Ascii.eqb c "t"%char then
            option_map (fun r' => (VBool true, r')) (strip_prefix "rue" r)
          else if Ascii.eqb c "f"%char then
            option_map (fun r' => (VBool false, r')) (strip_prefix "alse" r)
          else if Ascii.eqb c "N"%char then
            option_map (fun r' => (VFloat "NaN", r')) (strip_prefix "aN" r)
          else if Ascii.eqb c "I"%char then
            option_map (fun r' => (VFloat "Infinity", r')) (strip_prefix "nfinity" r)
          else if Ascii.eqb c "-"%char then
            match strip_prefix "Infinity" r with
            | Some r' => Some (VFloat "-Infinity", r')
            | None => scan_number s
            end
          else if is_digit c then scan_number s
          else None
      end
  end.

(** [json.loads]: one value, then only whitespace up to the end. *)
Definition json_loads (s : string) : option val :=
  match scan_value (S (String.length s)) s with
  | Some (v, rest) => if String.eqb (skip_ws rest) "" then Some v else None
  | None => None
  end.

Example json_loads_object :
  json_loads ("{" ++ quoted "a" ++ ": [1, -2.5e3, " ++ quoted "x\n" ++ "], "
              ++ quoted "b" ++ ": null, " ++ quoted "a" ++ ": true}")
  = Some (VDict [("a", VBool true); ("b", VNull)]).
Proof. reflexivity. Qed.

Example json_loads_string : json_loads (quoted "internal error") = Some (VStr "internal error").
Proof. reflexivity. Qed.

Example json_loads_plain_text : json_loads "internal error" = None.
Proof. reflexivity. Qed.

Example json_loads_bad : json_loads "[1,]" = None /\ json_loads "01" = None.
Proof. split; reflexivity. Qed.

Example json_loads_unicode :
  json_loads (quoted "\u4e2d") = Some (VStr (string_of_list_ascii (map byte [228; 184; 173]%Z)))
  /\ json_loads (quoted "\ud83d\ude00")
     = Some (VStr (string_of_list_ascii (map byte [240; 159; 152; 128]%Z)))
  /\ json_loads (quoted "\udc00x") = Some (VStr (string_of_list_ascii (map byte [237; 176; 128; 120]%Z))).
Proof. vm_compute. repeat split. Qed.

Example float_repr_samples :
  map (fun s => float_repr (to_double s))
    ["1e5"; "0.1"; "1e16"; "1e-5"; "5e-324"; "1e-400"; "-0.0"; "0e0"; "2.5"; "1.8e308";
     "1.7976931348623157e308"; "9007199254740993.0"; "0.30000000000000004"; "123.456e-2"; "NaN"]
  = ["100000.0"; "0.1"; "1e+16"; "1e-05"; "5e-324"; "0.0"; "-0.0"; "0.0"; "2.5"; "inf";
     "1.7976931348623157e+308"; "9007199254740992.0"; "0.30000000000000004"; "1.23456"; "nan"].
Proof. vm_compute. reflexivity. Qed.

(** ** URL helpers ([urllib.parse]) *)

Definition is_alnum (c : ascii) : bool :=
  let n := nat_of_ascii c in
  is_digit c || (Nat.leb 65 n && Nat.leb n 90) || (Nat.leb 97 n && Nat.leb n 122).

Definition hex_digit (n : nat) : ascii :=
  match String.get n "0123456789ABCDEF" with Some c => c | None => "0"%char end.

(** [quote_plus]: letters, digits and [_.-~] kept, space as [+], the rest
    as [%XX]. *)
Fixpoint quote_plus (s : string) : string :=
  match s with
  | EmptyString => ""
  | String c r =>
      let n := nat_of_ascii c in
      (if is_alnum c || Ascii.eqb c "_"%char || Ascii.eqb c "."%char
          || Ascii.eqb c "-"%char || Ascii.eqb c "~"%char then String c ""
       else if Ascii.eqb c " "%char then "+"
       else String "%"%char (String (hex_digit (n / 16)) (String (hex_digit (n mod 16)) "")))
      ++ quote_plus r
  end.

(** [urlencode(params, doseq=1)]: a str value once, a sized value (list,
    dict) once per element, anything else through [str]. *)
Definition urlencode (isp : Z -> bool) (ps : list (string * val)) : string :=
  String.concat "&"
    (flat_map (fun '(k, v) =>
       let k' := quote_plus k in
       match v with
       | VStr s => [k' ++ "=" ++ quote_plus s]
       | VList l => map (fun e => k' ++ "=" ++ quote_plus (py_str isp e)) l
       | VDict kvs => map (fun '(kk, _) => k' ++ "=" ++ quote_plus kk) kvs
       | _ => [k' ++ "=" ++ quote_plus (py_str isp v)]
       end) ps).

Fixpoint split_on (sep : ascii) (s : string) : list string :=
  match s with
  | EmptyString => [""]
  | String c r =>
      if Ascii.eqb c sep then "" :: split_on sep r
      else match split_on sep r with
           | w :: ws => String c w :: ws
           | [] => [String c ""]
           end
  end.

Fixpoint split_once (sep : ascii) (s : string) : option (string * string) :=
  match s with
  | EmptyString => None
  | String c r =>
      if Ascii.eqb c sep then Some ("", r)
      else option_map (fun '(a, b) => (String c a, b)) (split_once sep r)
  end.

(** [unquote_plus]: [+] as space, [%XX] decoded. *)
Fixpoint unquote_plus (s : string) : string :=
  match s with
  | EmptyString => ""
  | String c r =>
      if Ascii.eqb c "+"%char then String " "%char (unquote_plus r)
      else if Ascii.eqb c "%"%char then
        match r with
        | String h1 (String h2 r') =>
            match hexval h1, hexval h2 with
            | Some a, Some b => String (ascii_of_nat (a * 16 + b)) (unquote_plus r')
            | _, _ => String c (unquote_plus r)
            end
        | _ => String c (unquote_plus r)
        end
      else String c (unquote_plus r)
  end.

(** [parse_qs(qs)]: blank values dropped, each name bound to the list of its
    values in order. *)
Definition parse_qs (qs : string) : list (string * val) :=
  fold_left (fun acc field =>
    match split_once "="%char field with
    | None => acc
    | Some (n, v) =>
        if String.eqb v "" then acc
        else
          let name := unquote_plus n in
          let value := VStr (unquote_plus v) in
          match assoc name acc with
          | Some (VList l) => dict_set name (VList (l ++ [value])) acc
          | _ => dict_set name (VList [value]) acc
          end
    end) (split_on "&"%char qs) [].

(** [urlparse(url).query]: after the first [?], before the fragment. *)
Definition url_query (url : string) : string :=
  let nofrag := match split_once "#"%char url with Some (a, _) => a | None => url end in
  match split_once "?"%char nofrag with Some (_, q) => q | None => "" end.

Example parse_qs_href :
  parse_qs (url_query "http://h/v1.0/meas.json?limit=2&marker=a%20b&marker=c#x")
  = [("limit", VList [VStr "2"]); ("marker", VList [VStr "a b"; VStr "c"])].
Proof. reflexivity. Qed.

(** ** Exceptions *)

Inductive exc : Type :=
| ConnectionFailed (reason : string)
(** [client_exc(message=..., status_code=...)] for a class found by name or
    by status code *)
| ClientExc (cls : string) (status_code : Z) (message : val)
| ApmecClientException (status_code : Z) (message : val)
| MalformedResponseBody (reason : string)
| InvalidContentType (content_type : string)
| SerializeError (type_name : string)
| KeyError (key : string)
| TypeError (what : string)
| AttributeError (what : string)
(** model artefact: a nesting or iteration bound of this model was reached *)
| BoundReached.

Inductive outcome (A : Type) : Type :=
| Ok (a : A)
| Raised (e : exc).
Arguments Ok {A} a.
Arguments Raised {A} e.

(** [x[k]] on a deserialized value. *)
Definition getitem (v : val) (k : string) : outcome val :=
  match v with
  | VDict kvs => match assoc k kvs with Some x => Ok x | None => Raised (KeyError k) end
  | VList _ | VStr _ => Raised (TypeError "indices must be integers")
  | _ => Raised (TypeError "object is not subscriptable")
  end.

(** [for x in v]: a list yields its elements, a dict its keys, a str its
    characters. *)
Definition iter_val (v : val) : outcome (list val) :=
  match v with
  | VList l => Ok l
  | VDict kvs => Ok (map (fun '(k, _) => VStr k) kvs)
  | VStr s => Ok (map VStr (utf8_chars s))
  | _ => Raised (TypeError "object is not iterable")
  end.

(** ** The client object and the server it talks to *)

(** One answer of the server to one HTTP call: a response (status code,
    reason phrase, raw body) or a failure to complete the round trip. *)
Inductive tresp : Type :=
| TResp (status : Z) (reason : string) (body : string)
| TFail (reason : string).

(** One HTTP call as handed to the transport. *)
Record request : Type := mkRequest {
  rq_method : string;
  rq_url : string;
  rq_body : option string;
  rq_content_type : string
}.

(** What the client does to the outside world: an HTTP call, a
    [time.sleep]. *)
Inductive event : Type :=
| ESend (rq : request)
| ESleep (secs : nat).

(** [self] of [ClientBase] (format, retries, raise_errors, retry_interval)
    together with the server side: the answers still to come ([script]) and
    what the client did so far ([trace], oldest first). *)
Record client : Type := mkClient {
  format : val;
  retries : nat;
  raise_errors : bool;
  retry_interval : nat;
  script : list tresp;
  trace : list event
}.

(** [ClientBase.__init__]: format 'json', retry_interval 1. *)
Definition init_client (retries0 : nat) (raise_errors0 : bool) (server : list tresp)
  : client :=
  mkClient (VStr "json") retries0 raise_errors0 1 server [].

Definition with_format (st : client) (f : val) : client :=
  mkClient f (retries st) (raise_errors st) (retry_interval st)
    (script st) (trace st).

(** ** A state and exception monad *)

Definition M (A : Type) : Type := client -> outcome A * client.

Definition ret {A} (a : A) : M A := fun st => (Ok a, st).

Definition bind {A B} (m : M A) (k : A -> M B) : M B :=
  fun st =>
    match m st with
    | (Ok a, st') => k a st'
    | (Raised e, st') => (Raised e, st')
    end.

Definition raise {A} (e : exc) : M A := fun st => (Raised e, st).

(** [try m except: h(e)]; the state reached when [m] raised is kept. *)
Definition catch {A} (m : M A) (h : exc -> M A) : M A :=
  fun st =>
    match m st with
    | (Ok a, st') => (Ok a, st')
    | (Raised e, st') => h e st'
    end.

Definition lift {A} (o : outcome A) : M A :=
  match o with Ok a => ret a | Raised e => raise e end.

Definition get_self : M client := fun st => (Ok st, st).

Definition set_format (f : val) : M unit := fun st => (Ok tt, with_format st f).

Definition sleep (secs : nat) : M unit :=
  fun st =>
    (Ok tt, mkClient (format st) (retries st) (raise_errors st) (retry_interval st)
              (script st) (trace st ++ [ESleep secs])).

Notation "x <- m ;; k" := (bind m (fun x => k))
  (at level 61, m at next level, right associativity).
Notation "m ;;; k" := (bind m (fun _ => k))
  (at level 61, right associativity).

(** Modelled from the spec: the HTTP transport
    ([apmecclient.client.HTTPClient.do_request], not in src) performs one
    HTTP call and returns the response, or raises [ConnectionFailed] when
    the round trip cannot be completed.  Every call is recorded; the server
    gives its answers in order, and gives none once they run out. *)
Definition http_do_request (url method : string) (body : option string)
  (content_type : string) : M (Z * string * string) :=
  fun st =>
    let rq := mkRequest method url body content_type in
    let mk rest :=
      mkClient (format st) (retries st) (raise_errors st) (retry_interval st)
        rest (trace st ++ [ESend rq]) in
    match script st with
    | [] => (Raised (ConnectionFailed "no response"), mk [])
    | TFail r :: rest => (Raised (ConnectionFailed r), mk rest)
    | TResp code reason body' :: rest => (Ok (code, reason, body'), mk rest)
    end.

(** ** External collaborators

    Modelled from the spec: code of the repository that is not in src and
    that the runtime calls into.  The XML side of
    [apmecclient.common.serializer] and its [serialize], the exception
    classes of [apmecclient.common.exceptions] looked up by name
    ([getattr(exceptions, '%sClient' % error_type, None)]) and by status code
    ([HTTP_EXCEPTION_MAP]), and the constants of
    [apmecclient.common.constants] are left as parameters: the spec calls the
    status-code table "an external configuration, not part of this core's
    logic".  So is the table of printable characters from the Unicode
    database of the Python runtime, read by [str] and [repr] of a str. *)
Record env : Type := mkEnv {
  (** [XMLDeserializer(metadata).deserialize(data)], i.e. [{'body': ...}] *)
  xml_deserialize : val -> string -> outcome val;
  (** [Serializer(metadata).serialize(data, content_type)] *)
  serialize_to : string -> val -> val -> outcome string;
  (** the class [exceptions.<name>], if any *)
  exc_class : string -> option string;
  (** [exceptions.HTTP_EXCEPTION_MAP.get(status_code)] *)
  http_exception_map : Z -> option string;
  PLURALS : list (string * val);
  XML_NS_V10 : string;
  EXT_NS : string;
  (** [str.isprintable] of a code point from 256 on, from the Unicode
      database of the Python runtime *)
  unicode_isprintable : Z -> bool
}.

Definition is_json (f : val) : bool :=
  match f with VStr s => String.eqb s "json" | _ => false end.

Definition py_type_name (v : val) : string :=
  match v with
  | VNull => "NoneType" | VBool _ => "bool" | VInt _ => "int" | VFloat _ => "float"
  | VStr _ => "str" | VList _ => "list" | VDict _ => "dict"
  end.

Definition newline : string := String (ascii_of_nat 10) "".

(** [requests.codes.ok / created / accepted / no_content]. *)
Definition success_status (c : Z) : bool :=
  Z.eqb c 200 || Z.eqb c 201 || Z.eqb c 202 || Z.eqb c 204.

Section Client.

Variable E : env.

(** [self.content_type()]. *)
Definition content_type (f : val) : string :=
  "application/" ++ py_str (unicode_isprintable E) f.

(** [Serializer.deserialize(data, content_type)]: the handler is chosen by
    content type; the JSON one returns [{'body': json.loads(data)}]. *)
Definition serializer_deserialize (md : val) (data : string) (ct : string)
  : outcome val :=
  if String.eqb ct "application/json" then
    match json_loads data with
    | Some v => Ok (VDict [("body", v)])
    | None => Raised (MalformedResponseBody "Cannot understand JSON")
    end
  else if String.eqb ct "application/xml" then xml_deserialize E md data
  else Raised (InvalidContentType ct).

(** The fields of an [ApmecError] dict, as read inside the [try] of
    [exception_handler_v10]: [None] when any of the reads raises. *)
Definition apmec_error_fields (error_dict : val) : option (val * val) :=
  match getitem error_dict "type", getitem error_dict "message",
        getitem error_dict "detail" with
  | Ok error_type, Ok error_message, Ok detail =>
      if truthy detail then
        match detail with
        | VStr d =>
            (** [error_message += "\n" + detail] *)
            match error_message with
            | VStr m => Some (error_type, VStr (m ++ newline ++ d))
            | VList l =>
                Some (error_type,
                      VList (app l (map VStr (utf8_chars (newline ++ d)))))
            | _ => None
            end
        | _ => None
        end
      else Some (error_type, error_message)
  | _, _, _ => None
  end.

(** [exception_handler_v10(status_code, error_content)]: the exception it
    raises (it never returns normally). *)
Definition exception_handler_v10 (status_code : Z) (error_content : val) : exc :=
  let error_dict :=
    match error_content with
    | VDict kvs => match assoc "ApmecError" kvs with Some d => d | None => VNull end
    | _ => VNull
    end in
  let fallthrough :=
    ApmecClientException status_code
      (VStr (z_to_string status_code ++ "-" ++ py_str (unicode_isprintable E) error_content)) in
  if truthy error_dict then
    match apmec_error_fields error_dict with
    | Some (error_type, error_message) =>
        match exc_class E (py_str (unicode_isprintable E) error_type ++ "Client") with
        | Some cls => ClientExc cls status_code error_message
        | None =>
            match http_exception_map E status_code with
            | Some cls => ClientExc cls status_code error_message
            | None => ApmecClientException status_code error_message
            end
        end
    | None => ApmecClientException status_code error_dict
    end
  else
    let message :=
      match error_content with
      | VDict kvs => match assoc "message" kvs with Some m => m | None => VNull end
      | _ => VNull
      end in
    if truthy message then ApmecClientException status_code message
    else fallthrough.

(** The request path below is parameterised by [gam], the call of
    [self.get_attr_metadata()] it makes; [get_attr_metadata] itself, which
    issues requests, is defined afterwards by tying the knot. *)

(** [ClientBase.deserialize(data, status_code)]. *)
Definition deserialize_g (gam : M val) (data : string) (status_code : Z) : M val :=
  if Z.eqb status_code 204 then ret (VStr data)
  else
    md <- gam;;
    self <- get_self;;
    d <- lift (serializer_deserialize md data (content_type (format self)));;
    lift (getitem d "body").

(** [ClientBase.serialize(data)]. *)
Definition serialize_g (gam : M val) (data : val) : M (option string) :=
  match data with
  | VNull => ret None
  | VDict _ =>
      md <- gam;;
      self <- get_self;;
      s <- lift (serialize_to E (content_type (format self)) md data);;
      ret (Some s)
  | _ => raise (SerializeError (py_type_name data))
  end.

(** [ClientBase._handle_fault_response(status_code, response_body)]. *)
Definition handle_fault_response_g (gam : M val) (status_code : Z)
  (response_body : string) : M val :=
  des_error_body <-
    catch (deserialize_g gam response_body status_code)
          (fun _ => ret (VDict [("message", VStr response_body)]));;
  raise (exception_handler_v10 status_code des_error_body).

(** [self.action_prefix]: ["/v%s" % self.version] with version '1.0'. *)
Definition action_prefix : string := "/v1.0".

(** The URL built by [do_request]: format suffix, version prefix, and the
    encoded query when [params] is a non-empty dict. *)
Definition request_action (f : val) (action : string)
  (params : option (list (string * val))) : string :=
  let action1 := action_prefix ++ action ++ "." ++ py_str (unicode_isprintable E) f in
  match params with
  | Some ((_ :: _) as ps) => action1 ++ "?" ++ urlencode (unicode_isprintable E) ps
  | _ => action1
  end.

(** [ClientBase.do_request(method, action, body, headers, params)] up to the
    transport call: the URL, the body after [if body: body =
    self.serialize(body)], and [self.content_type()]. *)
Definition prepare_request_g (gam : M val) (action : string) (body : option val)
  (params : option (list (string * val))) : M (string * option string * string) :=
  self <- get_self;;
  let url := request_action (format self) action params in
  body' <- (match body with
            | Some b => if truthy b then serialize_g gam b else ret None
            | None => ret None
            end);;
  self' <- get_self;;
  ret (url, body', content_type (format self')).

(** [ClientBase.do_request] after the transport call. *)
Definition handle_response_g (gam : M val) (status_code : Z) (reason replybody : string)
  : M val :=
  if success_status status_code then deserialize_g gam replybody status_code
  else
    let replybody' := if String.eqb replybody "" then reason else replybody in
    handle_fault_response_g gam status_code replybody'.

(** [ClientBase.do_request(method, action, body, headers, params)]; [params]
    is [None] or a dict, headers are not used by the code. *)
Definition do_request_g (gam : M val) (method action : string) (body : option val)
  (params : option (list (string * val))) : M val :=
  req <- prepare_request_g gam action body params;;
  let '(url, body', ct) := req in
  resp <- http_do_request url method body' ct;;
  let '(status_code, reason, replybody) := resp in
  handle_response_g gam status_code reason replybody.

(** The message of the [ConnectionFailed] raised after the loop of
    [retry_request]. *)
Definition retry_failure_msg (retries0 : nat) : string :=
  match retries0 with
  | O => "Failed to connect Apmec server"
  | S _ => "Failed to connect to Apmec server after "
           ++ nat_to_string (S retries0) ++ " attempts"
  end.

(** [for i in range(...)] of [retry_request], from attempt [i] with [n]
    attempts left. *)
Fixpoint retry_loop (n i : nat) (attempt : M val) : M val :=
  match n with
  | O =>
      self <- get_self;;
      raise (ConnectionFailed (retry_failure_msg (retries self)))
  | S n' =>
      catch attempt (fun e =>
        match e with
        | ConnectionFailed _ =>
            self <- get_self;;
            if Nat.ltb i (retries self) then
              sleep (retry_interval self);;; retry_loop n' (S i) attempt
            else if raise_errors self then raise e
            else retry_loop n' (S i) attempt
        | _ => raise e
        end)
  end.

(** [ClientBase.retry_request]: [max_attempts = self.retries + 1]. *)
Definition retry_request_g (gam : M val) (method action : string) (body : option val)
  (params : option (list (string * val))) : M val :=
  self <- get_self;;
  retry_loop (S (retries self)) 0 (do_request_g gam method action body params).

Definition get_g (gam : M val) (action : string) (params : option (list (string * val)))
  : M val :=
  retry_request_g gam "GET" action None params.

(** [APIParamsCall]: [with_params] (args, kwargs) around [f]. *)
Definition with_params {A} (kwargs : list (string * val)) (f : M A) : M A :=
  self <- get_self;;
  let _format := format self in
  (match assoc "format" kwargs with Some f' => set_format f' | None => ret tt end);;;
  r <- f;;
  set_format _format;;;
  ret r.

(** [Client.list_extensions] (keyword params), decorated with [APIParamsCall]. *)
Definition list_extensions_g (gam : M val) (_params : list (string * val)) : M val :=
  with_params _params (get_g gam "/extensions" (Some _params)).

(** [dict([(ext['alias'], ext['namespace']) for ext in exts])]. *)
Fixpoint ext_namespaces (exts : list val) : outcome (list (string * val)) :=
  match exts with
  | [] => Ok []
  | ext :: rest =>
      match getitem ext "alias", getitem ext "namespace" with
      | Ok alias, Ok ns =>
          match ext_namespaces rest with
          | Ok acc => Ok ((py_str (unicode_isprintable E) alias, ns) :: acc)
          | Raised e => Raised e
          end
      | Raised e, _ => Raised e
      | _, Raised e => Raised e
      end
  end.

Definition dict_of_pairs (kvs : list (string * val)) : list (string * val) :=
  fold_left (fun acc '(k, v) => dict_set k v acc) kvs [].

(** [ClientBase.get_attr_metadata()].  The metadata fetch runs with format
    'json', in which [get_attr_metadata] returns at once, so the requests it
    issues use the level below; level 1 is the client's own behaviour.
    [EXTED_PLURALS] is the class-level dict updated with
    [constants.PLURALS]; [ClientBase] and [Client] start it empty, so it
    equals [PLURALS]. *)
Fixpoint get_attr_metadata (lvl : nat) : M val :=
  self <- get_self;;
  if is_json (format self) then ret (VDict [])
  else
    match lvl with
    | O => raise BoundReached
    | S l =>
        let old_request_format := format self in
        set_format (VStr "json");;;
        r <- list_extensions_g (get_attr_metadata l) [];;
        exts_v <- lift (getitem r "extensions");;
        set_format old_request_format;;;
        exts <- lift (iter_val exts_v);;
        ns <- lift (ext_namespaces exts);;
        ret (VDict [("plurals", VDict (PLURALS E)); ("xmlns", VStr (XML_NS_V10 E));
                    (EXT_NS E, VDict (dict_of_pairs ns))])
    end.

Definition metadata : M val := get_attr_metadata 1.

Definition deserialize := deserialize_g metadata.
Definition handle_fault_response := handle_fault_response_g metadata.
Definition prepare_request := prepare_request_g metadata.
Definition do_request := do_request_g metadata.
Definition retry_request := retry_request_g metadata.

Definition delete (action : string) (body : option val)
  (params : option (list (string * val))) : M val :=
  retry_request "DELETE" action body params.

Definition get (action : string) (body : option val)
  (params : option (list (string * val))) : M val :=
  retry_request "GET" action body params.

(** POST requests are not retried (the orphan objects problem). *)
Definition post (action : string) (body : option val)
  (params : option (list (string * val))) : M val :=
  do_request "POST" action body params.

Definition put (action : string) (body : option val)
  (params : option (list (string * val))) : M val :=
  retry_request "PUT" action body params.

Definition list_extensions := list_extensions_g metadata.

(** The link scan of [_pagination]: [Some params] when a link with
    [rel == linkrel] is found (its href's query parsed by [parse_qs]),
    [None] when the loop stops; a [KeyError] stops the loop, any other
    exception propagates. *)
Fixpoint scan_links (links : list val) (linkrel : string)
  : outcome (option (list (string * val))) :=
  match links with
  | [] => Ok None
  | link :: rest =>
      match getitem link "rel" with
      | Raised (KeyError _) => Ok None
      | Raised e => Raised e
      | Ok rel =>
          if match rel with VStr s => String.eqb s linkrel | _ => false end then
            match getitem link "href" with
            | Raised (KeyError _) => Ok None
            | Raised e => Raised e
            | Ok (VStr href) => Ok (Some (parse_qs (url_query href)))
            | Ok _ => Raised (TypeError "urlparse expects a str")
            end
          else scan_links rest linkrel
      end
  end.

Definition next_params (res : val) (collection linkrel : string)
  : outcome (option (list (string * val))) :=
  match getitem res (collection ++ "_links") with
  | Raised (KeyError _) => Ok None
  | Raised e => Raised e
  | Ok links =>
      match iter_val links with
      | Ok ls => scan_links ls linkrel
      | Raised e => Raised e
      end
  end.

(** The [while next:] loop of [_pagination], driven by a consumer that
    receives each yielded page before the loop resumes.  [fuel] bounds the
    number of pages. *)
Fixpoint pagination_loop {B} (fuel : nat) (consume : B -> val -> M B)
  (collection path linkrel : string) (params : list (string * val)) (acc : B)
  : M B :=
  match fuel with
  | O => raise BoundReached
  | S f =>
      res <- get path None (Some params);;
      acc' <- consume acc res;;
      nxt <- lift (next_params res collection linkrel);;
      match nxt with
      | Some params' => pagination_loop f consume collection path linkrel params' acc'
      | None => ret acc'
      end
  end.

(** [ClientBase._pagination(collection, path, **params)] consumed by
    [consume].  Every page costs at least one answer of the server, and a
    request with no answer left raises, so one page more than the answers
    left is never reached: the bound is the model's, not the code's. *)
Definition pagination {B} (consume : B -> val -> M B) (init : B)
  (collection path : string) (params : list (string * val)) : M B :=
  let linkrel :=
    match assoc "page_reverse" params with
    | Some v => if truthy v then "previous" else "next"
    | None => "next"
    end in
  self <- get_self;;
  pagination_loop (S (length (script self))) consume collection path linkrel params init.

(** [ClientBase.list(collection, path, retrieve_all=True, **params)]:
    [res.extend(r[collection])] for every page, then [{collection: res}]. *)
Definition list_all (collection path : string) (params : list (string * val)) : M val :=
  res <- pagination (fun res r =>
                       items <- lift (getitem r collection);;
                       xs <- lift (iter_val items);;
                       ret (app res xs)) (@nil val) collection path params;;
  ret (VDict [(collection, VList res)]).

End Client.

(** ** Python operations used by the resource methods of [Client] *)

Definition DEFAULT_DESC_LENGTH : nat := 25.
Definition DEFAULT_ERROR_REASON_LENGTH : nat := 100.

(** [len(v)]. *)
Definition py_len (v : val) : outcome nat :=
  match v with
  | VStr s => Ok (str_len s)
  | VList l => Ok (length l)
  | VDict kvs => Ok (length kvs)
  | _ => Raised (TypeError ("object of type '" ++ py_type_name v ++ "' has no len()"))
  end.

(** [v[:n]]. *)
Definition py_slice_to (v : val) (n : nat) : outcome val :=
  match v with
  | VStr s => Ok (VStr (str_prefix n s))
  | VList l => Ok (VList (firstn n l))
  | VDict _ => Raised (TypeError "unhashable type: 'slice'")
  | _ => Raised (TypeError ("'" ++ py_type_name v ++ "' object is not subscriptable"))
  end.

(** [v += s] with [s] a str: a str is concatenated, a list is extended with
    the characters of [s]. *)
Definition py_iadd_str (v : val) (s : string) : outcome val :=
  match v with
  | VStr x => Ok (VStr (x ++ s))
  | VList l => Ok (VList (app l (map VStr (utf8_chars s))))
  | _ => Raised (TypeError ("unsupported operand type(s) for +=: '" ++ py_type_name v
                             ++ "' and 'str'"))
  end.

(** [for x in l: f(x)], stopping at the first exception. *)
Fixpoint map_outcome (f : val -> outcome val) (l : list val) : outcome (list val) :=
  match l with
  | [] => Ok []
  | x :: r =>
      match f x with
      | Raised e => Raised e
      | Ok y => match map_outcome f r with Ok ys => Ok (y :: ys) | Raised e => Raised e end
      end
  end.

(** [if len(v) > limit: d[key] = v[:limit]; d[key] += '...']: [Some] of the
    new value when [v] is shortened, [None] when it is left. *)
Definition shorten_value (limit : nat) (v : val) : outcome (option val) :=
  match py_len v with
  | Raised e => Raised e
  | Ok n =>
      if Nat.ltb limit n then
        match py_slice_to v limit with
        | Raised e => Raised e
        | Ok v' => match py_iadd_str v' "..." with Ok w => Ok (Some w) | Raised e => Raised e end
        end
      else Ok None
  end.

(** The loop body of [list_meads] ([if mead.get('description'): if
    len(...) > ...]) and of [list_meas], [list_mess], [list_mecas]
    ([error_reason = mea.get('error_reason', None); if error_reason and
    len(error_reason) > ...]), on one element of the listing. *)
Definition truncate_get (limit : nat) (key : string) (item : val) : outcome val :=
  match item with
  | VDict kvs =>
      match assoc key kvs with
      | Some v =>
          if truthy v then
            match shorten_value limit v with
            | Ok (Some w) => Ok (VDict (dict_set key w kvs))
            | Ok None => Ok item
            | Raised e => Raised e
            end
          else Ok item
      | None => Ok item
      end
  | _ => Raised (AttributeError ("'" ++ py_type_name item ++ "' object has no attribute 'get'"))
  end.

(** The loop body of [list_mesds] and [list_mecads]: [if 'description' in
    mesd.keys() and len(mesd['description']) > ...]. *)
Definition truncate_in_keys (limit : nat) (key : string) (item : val) : outcome val :=
  match item with
  | VDict kvs =>
      match assoc key kvs with
      | Some v =>
          match shorten_value limit v with
          | Ok (Some w) => Ok (VDict (dict_set key w kvs))
          | Ok None => Ok item
          | Raised e => Raised e
          end
      | None => Ok item
      end
  | _ => Raised (AttributeError ("'" ++ py_type_name item ++ "' object has no attribute 'keys'"))
  end.

(** [f(..., **kwargs)] where [f] already binds the parameters [names]
    positionally: a keyword argument of the same name is refused. *)
Definition kwargs_free (names : list string) (kwargs : list (string * val)) : bool :=
  negb (existsb (fun '(k, _) => existsb (String.eqb k) names) kwargs).

(** What [ClientBase.list] returns: the dict [{collection: res}] when
    [retrieve_all] is set, else the generator [self._pagination(...)], whose
    body has not started. *)
Inductive list_ret : Type :=
| LDict (v : val)
| LGenerator (collection path : string) (params : list (string * val)).

(** [x[k]] on the result of [ClientBase.list]. *)
Definition lr_getitem (r : list_ret) (k : string) : outcome val :=
  match r with
  | LDict v => getitem v k
  | LGenerator _ _ _ => Raised (TypeError "'generator' object is not subscriptable")
  end.

(** [for x in d[collection]: body(x)] followed by [return d], [d] being the
    result of [ClientBase.list]; [body] updates [x] in place. *)
Definition shorten_listing (collection : string) (body : val -> outcome val) (r : list_ret)
  : outcome val :=
  match r with
  | LGenerator _ _ _ => Raised (TypeError "'generator' object is not subscriptable")
  | LDict d =>
      match getitem d collection with
      | Raised e => Raised e
      | Ok items =>
          match iter_val items with
          | Raised e => Raised e
          | Ok l =>
              match map_outcome body l with
              | Raised e => Raised e
              | Ok l' =>
                  match items, d with
                  | VList _, VDict kvs => Ok (VDict (dict_set collection (VList l') kvs))
                  | _, _ => Ok d
                  end
              end
          end
      end
  end.

(** ** The resource methods of [Client] *)

Section Client_api.

Variable E : env.

(** [ClientBase.list(collection, path, retrieve_all, **params)]. *)
Definition list_ (collection path : string) (retrieve_all : bool)
  (params : list (string * val)) : M list_ret :=
  if kwargs_free ["self"; "collection"; "path"; "retrieve_all"] params then
    if retrieve_all then r <- list_all E collection path params;; ret (LDict r)
    else ret (LGenerator collection path params)
  else raise (TypeError "list() got multiple values for an argument").

(** A [Client] method [m(self, <names>..., **_params)] called through
    [APIParamsCall] with its positional arguments and the keyword arguments
    [_params]: a keyword naming one of the positional parameters [names] is
    refused. *)
Definition api_call {A} (names : list string) (_params : list (string * val)) (body : M A)
  : M A :=
  with_params _params
    (match find (fun '(k, _) => existsb (String.eqb k) names) _params with
     | Some (k, _) => raise (TypeError ("got multiple values for argument '" ++ k ++ "'"))
     | None => body
     end).

Definition list_meads (retrieve_all : bool) (_params : list (string * val)) : M val :=
  api_call ["self"; "retrieve_all"] _params
    (meads_dict <- list_ "meads" "/meads" retrieve_all _params;;
     lift (shorten_listing "meads" (truncate_get DEFAULT_DESC_LENGTH "description")
             meads_dict)).

Definition list_meas (retrieve_all : bool) (_params : list (string * val)) : M val :=
  api_call ["self"; "retrieve_all"] _params
    (meas <- list_ "meas" "/meas" retrieve_all _params;;
     lift (shorten_listing "meas"
             (truncate_get DEFAULT_ERROR_REASON_LENGTH "error_reason") meas)).

Definition list_mess (retrieve_all : bool) (_params : list (string * val)) : M val :=
  api_call ["self"; "retrieve_all"] _params
    (mess <- list_ "mess" "/mess" retrieve_all _params;;
     lift (shorten_listing "mess"
             (truncate_get DEFAULT_ERROR_REASON_LENGTH "error_reason") mess)).

Definition list_mecas (retrieve_all : bool) (_params : list (string * val)) : M val :=
  api_call ["self"; "retrieve_all"] _params
    (mecas <- list_ "mecas" "/mecas" retrieve_all _params;;
     lift (shorten_listing "mecas"
             (truncate_get DEFAULT_ERROR_REASON_LENGTH "error_reason") mecas)).

Definition list_mesds (retrieve_all : bool) (_params : list (string * val)) : M val :=
  api_call ["self"; "retrieve_all"] _params
    (mesds_dict <- list_ "mesds" "/mesds" retrieve_all _params;;
     lift (shorten_listing "mesds" (truncate_in_keys DEFAULT_DESC_LENGTH "description")
             mesds_dict)).

Definition list_mecads (retrieve_all : bool) (_params : list (string * val)) : M val :=
  api_call ["self"; "retrieve_all"] _params
    (mecads_dict <- list_ "mecads" "/mecads" retrieve_all _params;;
     lift (shorten_listing "mecads" (truncate_in_keys DEFAULT_DESC_LENGTH "description")
             mecads_dict)).

Definition list_vims (retrieve_all : bool) (_params : list (string * val)) : M list_ret :=
  api_call ["self"; "retrieve_all"] _params (list_ "vims" "/vims" retrieve_all _params).

Definition list_events (retrieve_all : bool) (_params : list (string * val)) : M list_ret :=
  api_call ["self"; "retrieve_all"] _params (list_ "events" "/events" retrieve_all _params).

Definition list_mea_resources (mea : string) (retrieve_all : bool)
  (_params : list (string * val)) : M list_ret :=
  api_call ["self"; "mea"; "retrieve_all"] _params
    (list_ "resources" ("/meas/" ++ mea ++ "/resources") retrieve_all _params).

(** The body shared by [list_mea_events], [list_mead_events] and
    [list_vim_events]: [_params['resource_type'] = rtype], then
    [{rtype + '_events': events['events']}]. *)
Definition list_typed_events (rtype : string) (retrieve_all : bool)
  (_params : list (string * val)) : M val :=
  api_call ["self"; "retrieve_all"] _params
    (let _params' := dict_set "resource_type" (VStr rtype) _params in
     events <- list_ "events" "/events" retrieve_all _params';;
     evs <- lift (lr_getitem events "events");;
     ret (VDict [(rtype ++ "_events", evs)])).

Definition list_mea_events := list_typed_events "mea".
Definition list_mead_events := list_typed_events "mead".
Definition list_vim_events := list_typed_events "vim".

(** [Client.create_mead(body)]: [body['mead']['service_types'] =
    [{'service_type': 'mead'}]] (in the caller's dict), then a POST. *)
Definition create_mead (body : val) : M val :=
  api_call ["self"; "body"] []
    (mead <- lift (getitem body "mead");;
     body' <- lift (match mead, body with
                    | VDict mkvs, VDict bkvs =>
                        Ok (VDict (dict_set "mead"
                                     (VDict (dict_set "service_types"
                                               (VList [VDict [("service_type", VStr "mead")]])
                                               mkvs)) bkvs))
                    | _, _ => Raised (TypeError "object does not support item assignment")
                    end);;
     post E "/meads" (Some body') None).

(** The single-resource methods: [show_X(x, **_params)] is a GET of
    ['/<xs>/%s' % x] with the params, [delete_X(x)] a DELETE and
    [update_X(x, body)] a PUT of it, [create_X(body)] a POST to ['/<xs>'],
    [scale_mea(mea, body)] a POST to ['/meas/%s/actions']. *)
Definition show_extension (ext_alias : string) (_params : list (string * val)) : M val :=
  api_call ["self"; "ext_alias"] _params (get E ("/extensions/" ++ ext_alias) None (Some _params)).
Definition show_mead (mead : string) (_params : list (string * val)) : M val :=
  api_call ["self"; "mead"] _params (get E ("/meads/" ++ mead) None (Some _params)).
Definition delete_mead (mead : string) : M val :=
  api_call ["self"; "mead"] [] (delete E ("/meads/" ++ mead) None None).
Definition show_mea (mea : string) (_params : list (string * val)) : M val :=
  api_call ["self"; "mea"] _params (get E ("/meas/" ++ mea) None (Some _params)).
Definition create_mea (body : val) : M val :=
  api_call ["self"; "body"] [] (post E "/meas" (Some body) None).
Definition delete_mea (mea : string) : M val :=
  api_call ["self"; "mea"] [] (delete E ("/meas/" ++ mea) None None).
Definition update_mea (mea : string) (body : val) : M val :=
  api_call ["self"; "mea"; "body"] [] (put E ("/meas/" ++ mea) (Some body) None).
Definition scale_mea (mea : string) (body : option val) : M val :=
  api_call ["self"; "mea"; "body"] [] (post E ("/meas/" ++ mea ++ "/actions") body None).
Definition show_vim (vim : string) (_params : list (string * val)) : M val :=
  api_call ["self"; "vim"] _params (get E ("/vims/" ++ vim) None (Some _params)).
Definition create_vim (body : val) : M val :=
  api_call ["self"; "body"] [] (post E "/vims" (Some body) None).
Definition delete_vim (vim : string) : M val :=
  api_call ["self"; "vim"] [] (delete E ("/vims/" ++ vim) None None).
Definition update_vim (vim : string) (body : val) : M val :=
  api_call ["self"; "vim"; "body"] [] (put E ("/vims/" ++ vim) (Some body) None).
Definition show_event (event_id : string) (_params : list (string * val)) : M val :=
  api_call ["self"; "event_id"] _params (get E ("/events/" ++ event_id) None (Some _params)).
Definition show_mesd (mesd : string) (_params : list (string * val)) : M val :=
  api_call ["self"; "mesd"] _params (get E ("/mesds/" ++ mesd) None (Some _params)).
Definition create_mesd (body : val) : M val :=
  api_call ["self"; "body"] [] (post E "/mesds" (Some body) None).
Definition delete_mesd (mesd : string) : M val :=
  api_call ["self"; "mesd"] [] (delete E ("/mesds/" ++ mesd) None None).
Definition show_mes (mes : string) (_params : list (string * val)) : M val :=
  api_call ["self"; "mes"] _params (get E ("/mess/" ++ mes) None (Some _params)).
Definition create_mes (body : val) : M val :=
  api_call ["self"; "body"] [] (post E "/mess" (Some body) None).
Definition delete_mes (mes : string) : M val :=
  api_call ["self"; "mes"] [] (delete E ("/mess/" ++ mes) None None).
Definition update_mes (mes : string) (body : val) : M val :=
  api_call ["self"; "mes"; "body"] [] (put E ("/mess/" ++ mes) (Some body) None).
Definition show_mecad (mecad : string) (_params : list (string * val)) : M val :=
  api_call ["self"; "mecad"] _params (get E ("/mecads/" ++ mecad) None (Some _params)).
Definition create_mecad (body : val) : M val :=
  api_call ["self"; "body"] [] (post E "/mecads" (Some body) None).
Definition delete_mecad (mecad : string) : M val :=
  api_call ["self"; "mecad"] [] (delete E ("/mecads/" ++ mecad) None None).
Definition show_meca (meca : string) (_params : list (string * val)) : M val :=
  api_call ["self"; "meca"] _params (get E ("/mecas/" ++ meca) None (Some _params)).
Definition create_meca (body : val) : M val :=
  api_call ["self"; "body"] [] (post E "/mecas" (Some body) None).
Definition delete_meca (meca : string) : M val :=
  api_call ["self"; "meca"] [] (delete E ("/mecas/" ++ meca) None None).
Definition update_meca (meca : string) (body : val) : M val :=
  api_call ["self"; "meca"; "body"] [] (put E ("/mecas/" ++ meca) (Some body) None).

End Client_api.

(** ** A sample configuration for concrete runs

    JSON text for request bodies (strings are not escaped here), no XML
    support, no exception class looked up by name, and the usual status-code
    table (401, 403, 404, 409). *)
Fixpoint json_dumps (v : val) : string :=
  match v with
  | VNull => "null"
  | VBool true => "true"
  | VBool false => "false"
  | VInt z => z_to_string z
  | VFloat s => s
  | VStr s => quoted s
  | VList l => "[" ++ String.concat ", " (map json_dumps l) ++ "]"
  | VDict kvs =>
      "{" ++ String.concat ", "
        (map (fun '(k, v) => quoted k ++ ": " ++ json_dumps v) kvs) ++ "}"
  end.

Definition sample_env : env :=
  mkEnv
    (fun _ _ => Raised (InvalidContentType "application/xml"))
    (fun ct _ data =>
       if String.eqb ct "application/json" then Ok (json_dumps data)
       else Raised (InvalidContentType ct))
    (fun _ => None)
    (fun c => if Z.eqb c 401 then Some "Unauthorized"
              else if Z.eqb c 403 then Some "Forbidden"
              else if Z.eqb c 404 then Some "NotFound"
              else if Z.eqb c 409 then Some "Conflict"
              else None)
    [] "http://openstack.org/apmec/api/v1.0" "_extension_ns"
    (** a coarse printable table: the surrogates, the private use area and
        the line and paragraph separators are not printable *)
    (fun cp => negb ((55296 <=? cp) && (cp <=? 63743) || (cp =? 8232) || (cp =? 8233))%Z).

Definition run {A} (m : M A) (st : client) : outcome A * client := m st.

(** A page of the ["events"] collection, with a ["next"] link when [next]
    carries an href. *)
Definition sample_page (items : list val) (next : option string) : val :=
  VDict (("events", VList items)
         :: match next with
            | Some h => [("events_links",
                          VList [VDict [("rel", VStr "next"); ("href", VStr h)]])]
            | None => []
            end).

(** The server answer carrying [page] as its JSON body. *)
Definition sample_answer (page : val) : tresp := TResp 200 "OK" (json_dumps page).

(** XML documents known to the sample XML deserializer, with the value of
    each: three pages of the ["events"] collection, the first two linking to
    the next one. *)
Definition sample_xml_docs : list (string * val) :=
  [("<events><event>1</event><events_links><link rel='next' href='http://h/v1.0/events.xml?marker=1'/></events_links></events>",
    sample_page [VInt 1] (Some "http://h/v1.0/events.xml?marker=1"));
   ("<events><event>2</event><events_links><link rel='next' href='http://h/v1.0/events.xml?marker=2'/></events_links></events>",
    sample_page [VInt 2] (Some "http://h/v1.0/events.xml?marker=2"));
   ("<events><event>3</event></events>", sample_page [VInt 3] None)].

(** [sample_env] with an XML deserializer that knows the documents of
    [sample_xml_docs] and rejects any other text. *)
Definition sample_xml_env : env :=
  mkEnv
    (fun _ data =>
       match assoc data sample_xml_docs with
       | Some v => Ok (VDict [("body", v)])
       | None => Raised (MalformedResponseBody "Cannot understand XML")
       end)
    (serialize_to sample_env) (exc_class sample_env) (http_exception_map sample_env)
    (PLURALS sample_env) (XML_NS_V10 sample_env) (EXT_NS sample_env)
    (unicode_isprintable sample_env).

(** The answer of a server with no extension to the metadata fetch. *)
Definition no_extensions : tresp :=
  TResp 200 "OK" (json_dumps (VDict [("extensions", VList [])])).

(** A server answering the XML pages of [sample_xml_docs] in order, each
    followed by the answer to the metadata fetch of its deserialization. *)
Definition xml_pages_server : list tresp :=
  flat_map (fun '(d, _) => [TResp 200 "OK" d; no_extensions]) sample_xml_docs.

(** A listing page of meads: a description of 30 characters and a null
    one. *)
Definition long_desc : string := "abcdefghijklmnopqrstuvwxyz0123".

Definition meads_page : val :=
  VDict [("meads", VList [VDict [("description", VStr long_desc)];
                          VDict [("description", VNull)]])].

(** ** Vocabulary for the statements *)

(** [ClientBase.serialize(body)] in the JSON format, where the metadata is
    [{}] and no request is issued: the body handed to the transport. *)
Definition json_request_body (E : env) (body : option val) : outcome (option string) :=
  match body with
  | Some b =>
      if truthy b then
        match b with
        | VDict _ =>
            match serialize_to E "application/json" (VDict []) b with
            | Ok s => Ok (Some s)
            | Raised e => Raised e
            end
        | _ => Raised (SerializeError (py_type_name b))
        end
      else Ok None
  | None => Ok None
  end.

(** The client after one transport call [rq], with [rest] the answers left. *)
Definition called (st : client) (rq : request) (rest : list tresp) : client :=
  mkClient (format st) (retries st) (raise_errors st) (retry_interval st)
    rest (trace st ++ [ESend rq]).

(** A link entry of the form [{"rel": rel, ...}] whose rel is not [dir]. *)
Definition other_link (dir : string) (l : val) : Prop :=
  exists kvs s, l = VDict kvs /\ assoc "rel" kvs = Some (VStr s) /\ s <> dir.

(** A page whose ['<collection>_links'] entry is absent, or is a list of link
    dicts none of which has rel [dir]. *)
Definition no_link_for (page : val) (collection dir : string) : Prop :=
  getitem page (collection ++ "_links") = Raised (KeyError (collection ++ "_links"))
  \/ exists ls, getitem page (collection ++ "_links") = Ok (VList ls)
                /\ Forall (fun l => exists kvs, l = VDict kvs
                                               /\ assoc "rel" kvs <> Some (VStr dir)) ls.


(** [k + 1] calls of [rq] with a sleep of [secs] between each two. *)
Fixpoint retry_trace (rq : request) (secs : nat) (k : nat) : list event :=
  match k with
  | O => [ESend rq]
  | S k' => ESend rq :: ESleep secs :: retry_trace rq secs k'
  end.

(** A server answer carrying a page: a success status other than 204 and a
    JSON body whose [collection] entry is the list [items]. *)
Definition page_answer (t : tresp) (collection : string) (page : val)
  (items : list val) : Prop :=
  exists c r b, t = TResp c r b /\ success_status c = true /\ c <> 204%Z
                /\ json_loads b = Some page
                /\ getitem page collection = Ok (VList items).

(** The direction chosen by [_pagination] from [page_reverse]. *)
Definition link_direction (params : list (string * val)) : string :=
  match assoc "page_reverse" params with
  | Some v => if truthy v then "previous" else "next"
  | None => "next"
  end.

(** [k] failed calls of [rq], each followed by a sleep of [secs]. *)
Fixpoint fail_prefix (rq : request) (secs : nat) (k : nat) : list event :=
  match k with
  | O => []
  | S k' => ESend rq :: ESleep secs :: fail_prefix rq secs k'
  end.


(** The client in which the body of a [Client] method runs: the format
    given as the keyword argument [format], if any, is set by
    [APIParamsCall]. *)
Definition call_state (kwargs : list (string * val)) (st : client) : client :=
  match assoc "format" kwargs with
  | Some f => with_format st f
  | None => st
  end.

(** A listing element after the loop body of the truncating list methods,
    when its field [key] is a str, null or absent: a str longer than
    [limit] is cut to [limit] characters followed by ["..."]. *)
Definition cut_field (limit : nat) (key : string) (item : val) : val :=
  match item with
  | VDict kvs =>
      match assoc key kvs with
      | Some (VStr s) =>
          if Nat.ltb limit (str_len s)
          then VDict (dict_set key (VStr (str_prefix limit s ++ "...")) kvs)
          else item
      | _ => item
      end
  | _ => item
  end.

(** A listing element: a dict whose field [key] is absent, null or a str. *)
Definition str_or_null_field (key : string) (item : val) : Prop :=
  exists kvs, item = VDict kvs
              /\ forall v, assoc key kvs = Some v -> v = VNull \/ exists s, v = VStr s.


(** A listing element whose field [key], when a str, has at most [n]
    characters. *)
Definition field_at_most (key : string) (n : nat) (item : val) : Prop :=
  forall kvs s, item = VDict kvs -> assoc key kvs = Some (VStr s) -> str_len s <= n.


(** A request that fetches no metadata before it is sent: the format is
    JSON, or the body is absent or falsy (it is then not serialized). *)
Definition plain_body (f : val) (body : option val) : Prop :=
  is_json f = true \/ forall v, body = Some v -> truthy v = false.

(** The settings of [st1] are those of [st2], and [st2] has no more answers
    left than [st1]. *)
Definition le_client (st1 st2 : client) : Prop :=
  retries st2 = retries st1 /\ raise_errors st2 = raise_errors st1
  /\ retry_interval st2 = retry_interval st1
  /\ length (script st2) <= length (script st1).

(** A computation that keeps the settings and consumes answers only. *)
Definition steady {A} (m : M A) : Prop :=
  forall st o st', m st = (o, st') -> le_client st st'.


(** The client at the start of attempt [k + 1] of [retry_request]: after
    [k] attempts of [att], each followed by a sleep of [secs]. *)
Fixpoint after_attempts (att : M val) (secs : nat) (k : nat) (st : client) : client :=
  match k with
  | O => st
  | S k' => after_attempts att secs k' (snd (sleep secs (snd (att st))))
  end.


(** An event of the trace as one line: method and URL of a call, or a
    sleep. *)
Definition event_line (e : event) : string :=
  match e with
  | ESend rq => rq_method rq ++ " " ++ rq_url rq
  | ESleep _ => "sleep"
  end.

(** ** Proofs *)

Section Proofs.

Variable E : env.

Lemma is_json_VStr f : is_json f = true -> f = VStr "json".
Proof.
  destruct f; simpl; try discriminate.
  intros H. apply String.eqb_eq in H. now subst.
Qed.

Lemma metadata_json st :
  is_json (format st) = true -> metadata E st = (Ok (VDict []), st).
Proof.
  intros H. unfold metadata. simpl. unfold bind, get_self. rewrite H. reflexivity.
Qed.

Lemma prepare_json st a b p sb :
  is_json (format st) = true -> json_request_body E b = Ok sb ->
  prepare_request E a b p st
  = (Ok (request_action E (format st) a p, sb, "application/json"), st).
Proof.
  intros Hj Hb. pose proof (is_json_VStr _ Hj) as Hf.
  unfold prepare_request, prepare_request_g.
  destruct b as [v|]; simpl in Hb.
  - destruct (truthy v) eqn:T.
    + destruct v; try discriminate.
      destruct (serialize_to E "application/json" (VDict []) (VDict kvs)) eqn:S;
        inversion Hb; subst.
      cbv [bind get_self ret serialize_g lift]. rewrite (metadata_json st Hj).
      rewrite Hf. unfold content_type. simpl. rewrite S. rewrite Hf. reflexivity.

    + inversion Hb; subst. cbv [bind get_self ret]. rewrite Hf. reflexivity.
  - inversion Hb; subst. cbv [bind get_self ret]. rewrite Hf. reflexivity.
Qed.

Lemma http_call url m b ct st :
  http_do_request url m b ct st
  = (match script st with
     | [] => Raised (ConnectionFailed "no response")
     | TFail r :: _ => Raised (ConnectionFailed r)
     | TResp c rs bd :: _ => Ok (c, rs, bd)
     end, called st (mkRequest m url b ct) (tl (script st))).
Proof.
  unfold http_do_request, called. destruct (script st) as [|[]]; reflexivity.
Qed.

Lemma do_request_step m a b p st url sb ct st1 :
  prepare_request E a b p st = (Ok (url, sb, ct), st1) ->
  do_request E m a b p st
  = match http_do_request url m sb ct st1 with
    | (Ok (c, r, bd), st2) => handle_response_g E (metadata E) c r bd st2
    | (Raised e, st2) => (Raised e, st2)
    end.
Proof.
  intros H. unfold do_request, do_request_g. cbv [bind].
  unfold prepare_request in H. rewrite H.
  destruct (http_do_request url m sb ct st1) as [[[[c r] bd]|e] st2]; reflexivity.
Qed.

Lemma deserialize_json st bd c v :
  is_json (format st) = true -> c <> 204%Z -> json_loads bd = Some v ->
  deserialize_g E (metadata E) bd c st = (Ok v, st).
Proof.
  intros Hj Hc Hv. unfold deserialize_g.
  destruct (Z.eqb_spec c 204) as [->|_]; [congruence|].
  cbv [bind get_self lift]. rewrite (metadata_json st Hj).
  rewrite (is_json_VStr _ Hj). unfold serializer_deserialize, content_type. simpl.
  rewrite Hv. reflexivity.
Qed.

Lemma do_request_json_ok m a b p st sb c r bd rest v :
  is_json (format st) = true -> json_request_body E b = Ok sb ->
  script st = TResp c r bd :: rest ->
  success_status c = true -> c <> 204%Z -> json_loads bd = Some v ->
  do_request E m a b p st
  = (Ok v, called st (mkRequest m (request_action E (format st) a p) sb "application/json")
             rest).
Proof.
  intros Hj Hb Hs Hc H204 Hv.
  rewrite (do_request_step m a b p st _ _ _ _ (prepare_json st a b p sb Hj Hb)).
  rewrite http_call, Hs. simpl. unfold handle_response_g. rewrite Hc.
  apply deserialize_json; assumption.
Qed.

Lemma retry_request_first_ok m a b p st v st1 :
  do_request E m a b p st = (Ok v, st1) ->
  retry_request E m a b p st = (Ok v, st1).
Proof.
  intros H. unfold retry_request, retry_request_g. cbv [bind get_self].
  simpl. unfold catch. unfold do_request in H. rewrite H. reflexivity.
Qed.

Lemma skipn_tl {A} n (l : list A) : skipn n (tl l) = skipn (S n) l.
Proof. destruct l; simpl; [now rewrite skipn_nil | reflexivity]. Qed.

Lemma nth_tl {A} n (l : list A) d : nth n (tl l) d = nth (S n) l d.
Proof. destruct l; simpl; [now destruct n | reflexivity]. Qed.

Lemma retry_loop_S n i att :
  retry_loop (S n) i att
  = catch att (fun e =>
      match e with
      | ConnectionFailed _ =>
          self <- get_self;;
          if Nat.ltb i (retries self) then
            sleep (retry_interval self);;; retry_loop n (S i) att
          else if raise_errors self then raise e
          else retry_loop n (S i) att
      | _ => raise e
      end).
Proof. reflexivity. Qed.

Lemma content_type_json f : is_json f = true -> content_type E f = "application/json".
Proof. intros H. rewrite (is_json_VStr _ H). reflexivity. Qed.

Lemma plain_none f : plain_body f None.
Proof. right. intros v Hv. discriminate Hv. Qed.

Lemma prepare_plain st a b p sb :
  plain_body (format st) b -> json_request_body E b = Ok sb ->
  prepare_request E a b p st
  = (Ok (request_action E (format st) a p, sb, content_type E (format st)), st).
Proof.
  intros [Hj|Hf] Hb.
  - rewrite (prepare_json st a b p sb Hj Hb), (content_type_json _ Hj). reflexivity.
  - unfold prepare_request, prepare_request_g. cbv [bind get_self ret].
    destruct b as [v|]; simpl in Hb.
    + rewrite (Hf v eq_refl) in *. simpl in Hb. injection Hb as <-. reflexivity.
    + injection Hb as <-. reflexivity.
Qed.

Lemma do_request_plain_fail m a b p st sb rs :
  plain_body (format st) b -> json_request_body E b = Ok sb ->
  script st = map TFail rs ->
  do_request E m a b p st
  = (Raised (ConnectionFailed (nth 0 rs "no response")),
     called st (mkRequest m (request_action E (format st) a p) sb (content_type E (format st)))
       (map TFail (tl rs))).
Proof.
  intros Hj Hb Hs.
  rewrite (do_request_step m a b p st _ _ _ _ (prepare_plain st a b p sb Hj Hb)).
  rewrite http_call, Hs. destruct rs; reflexivity.
Qed.

(** Every answer a failure, and no metadata fetched: attempts [i .. i+k]
    of the retry loop, the last one being attempt [retries]. *)
Lemma retry_loop_all_fail m a b p sb rs k i st :
  plain_body (format st) b -> json_request_body E b = Ok sb ->
  script st = map TFail rs -> i + S k = S (retries st) ->
  retry_loop (S k) i (do_request E m a b p) st
  = (Raised (if raise_errors st then ConnectionFailed (nth k rs "no response")
             else ConnectionFailed (retry_failure_msg (retries st))),
     mkClient (format st) (retries st) (raise_errors st) (retry_interval st)
       (map TFail (skipn (S k) rs))
       (trace st ++ retry_trace (mkRequest m (request_action E (format st) a p) sb
                                   (content_type E (format st))) (retry_interval st) k)).
Proof.
  revert i st rs. induction k as [|k IH]; intros i st rs Hj Hb Hs Hi;
    rewrite retry_loop_S; unfold catch;
    rewrite (do_request_plain_fail m a b p st sb rs Hj Hb Hs);
    cbv [bind get_self called]; cbn -[retry_loop do_request Nat.ltb content_type].
  - replace (Nat.ltb i (retries st)) with false
      by (symmetry; apply Nat.ltb_ge; lia).
    destruct (raise_errors st); unfold raise; simpl;
      rewrite ?skipn_tl; destruct rs; reflexivity.
  - replace (Nat.ltb i (retries st)) with true
      by (symmetry; apply Nat.ltb_lt; lia).
    unfold sleep. cbn -[retry_loop do_request Nat.ltb content_type].
    rewrite (IH (S i) _ (tl rs)); cbn -[retry_loop do_request Nat.ltb content_type];
      auto; try lia.
    rewrite nth_tl, <- !app_assoc.
    destruct rs as [|x [|y l]]; simpl; rewrite ?skipn_nil; reflexivity.
Qed.

Lemma retry_request_all_fail m a b p sb rs st :
  plain_body (format st) b -> json_request_body E b = Ok sb ->
  script st = map TFail rs ->
  retry_request E m a b p st
  = (Raised (if raise_errors st then ConnectionFailed (nth (retries st) rs "no response")
             else ConnectionFailed (retry_failure_msg (retries st))),
     mkClient (format st) (retries st) (raise_errors st) (retry_interval st)
       (map TFail (skipn (S (retries st)) rs))
       (trace st ++ retry_trace (mkRequest m (request_action E (format st) a p) sb
                                   (content_type E (format st))) (retry_interval st)
                      (retries st))).
Proof.
  intros Hj Hb Hs. unfold retry_request, retry_request_g. cbv [bind get_self].
  apply retry_loop_all_fail; auto.
Qed.

Lemma get_json_ok a p st t rest coll page items :
  is_json (format st) = true -> script st = t :: rest -> page_answer t coll page items ->
  get E a None p st
  = (Ok page, called st (mkRequest "GET" (request_action E (format st) a p) None
                          "application/json") rest).
Proof.
  intros Hj Hs (c & r & bd & -> & Hc & H204 & Hv & _).
  apply retry_request_first_ok.
  apply (do_request_json_ok "GET" a None p st None c r bd rest page); auto.
Qed.

Lemma scan_links_skip dir pre rest :
  Forall (other_link dir) pre -> scan_links (pre ++ rest) dir = scan_links rest dir.
Proof.
  induction 1 as [|l pre (kvs & s & -> & Hrel & Hne) _ IH]; [reflexivity|].
  simpl. rewrite Hrel. destruct (String.eqb_spec s dir); [congruence|]. exact IH.
Qed.


Lemma next_params_none page coll dir :
  no_link_for page coll dir -> next_params page coll dir = Ok None.
Proof.
  unfold next_params. intros [Hk | (ls & Hl & Hall)]; [now rewrite Hk|].
  rewrite Hl. simpl. clear Hl.
  induction Hall as [|l ls (kvs & -> & Hne) _ IH]; [reflexivity|].
  simpl. destruct (assoc "rel" kvs) as [rel|] eqn:Hrel; [|reflexivity].
  assert (Hfalse : match rel with VStr s => String.eqb s dir | _ => false end = false).
  { destruct rel; try reflexivity. destruct (String.eqb_spec s dir); congruence. }
  rewrite Hfalse. exact IH.
Qed.

Lemma pagination_loop_step {B} fuel (consume : B -> val -> M B) coll path dir params
    acc st page st1 acc' nxt :
  get E path None (Some params) st = (Ok page, st1) ->
  consume acc page st1 = (Ok acc', st1) ->
  next_params page coll dir = Ok nxt ->
  pagination_loop E (S fuel) consume coll path dir params acc st
  = match nxt with
    | Some ps => pagination_loop E fuel consume coll path dir ps acc' st1
    | None => (Ok acc', st1)
    end.
Proof.
  intros Hg Hc Hn. simpl. cbv [bind]. rewrite Hg, Hc, Hn.
  destruct nxt; reflexivity.
Qed.

Lemma list_consume_page coll acc page items st :
  getitem page coll = Ok (VList items) ->
  (fun res r => items <- lift (getitem r coll);;
                xs <- lift (iter_val items);;
                ret (app res xs)) acc page st = (Ok (app acc items), st).
Proof. intros H. cbv [bind lift]. rewrite H. reflexivity. Qed.

(** *** Settings kept, answers consumed *)

Lemma le_client_refl st : le_client st st.
Proof. unfold le_client. repeat split; lia. Qed.

Lemma le_client_trans st1 st2 st3 :
  le_client st1 st2 -> le_client st2 st3 -> le_client st1 st3.
Proof.
  intros (H1 & H2 & H3 & H4) (H5 & H6 & H7 & H8).
  unfold le_client. repeat split; try congruence; lia.
Qed.

Lemma steady_ret {A} (a : A) : steady (ret a).
Proof. intros st o st' H. injection H as _ Hs. subst. apply le_client_refl. Qed.

Lemma steady_raise {A} e : steady (@raise A e).
Proof. intros st o st' H. injection H as _ Hs. subst. apply le_client_refl. Qed.

Lemma steady_get_self : steady get_self.
Proof. intros st o st' H. injection H as _ Hs. subst. apply le_client_refl. Qed.

Lemma steady_set_format f : steady (set_format f).
Proof.
  intros st o st' H. injection H as _ Hs. subst.
  unfold le_client. simpl. repeat split. lia.
Qed.

Lemma steady_sleep secs : steady (sleep secs).
Proof.
  intros st o st' H. injection H as _ Hs. subst.
  unfold le_client. simpl. repeat split. lia.
Qed.

Lemma steady_lift {A} (o : outcome A) : steady (lift o).
Proof. destruct o; [apply steady_ret | apply steady_raise]. Qed.

Lemma steady_http url m b ct : steady (http_do_request url m b ct).
Proof.
  intros st o st' H. rewrite http_call in H. injection H as _ Hs. subst.
  unfold le_client, called. simpl. repeat split.
  destruct (script st); simpl; lia.
Qed.

Lemma steady_bind {A B} (m : M A) (k : A -> M B) :
  steady m -> (forall a, steady (k a)) -> steady (bind m k).
Proof.
  intros Hm Hk st o st' H. unfold bind in H.
  destruct (m st) as [[a|e] st1] eqn:Em.
  - exact (le_client_trans _ _ _ (Hm _ _ _ Em) (Hk a _ _ _ H)).
  - injection H as _ Hs. subst. exact (Hm _ _ _ Em).
Qed.

Lemma steady_catch {A} (m : M A) (h : exc -> M A) :
  steady m -> (forall e, steady (h e)) -> steady (catch m h).
Proof.
  intros Hm Hh st o st' H. unfold catch in H.
  destruct (m st) as [[a|e] st1] eqn:Em.
  - injection H as _ Hs. subst. exact (Hm _ _ _ Em).
  - exact (le_client_trans _ _ _ (Hm _ _ _ Em) (Hh e _ _ _ H)).
Qed.

Ltac steady_step :=
  match goal with
  | |- steady (bind _ _) => apply steady_bind; [|intro]
  | |- steady (catch _ _) => apply steady_catch; [|intro]
  | |- steady (ret _) => apply steady_ret
  | |- steady (raise _) => apply steady_raise
  | |- steady get_self => apply steady_get_self
  | |- steady (set_format _) => apply steady_set_format
  | |- steady (sleep _) => apply steady_sleep
  | |- steady (lift _) => apply steady_lift
  | |- steady (http_do_request _ _ _ _) => apply steady_http
  | |- steady (if ?c then _ else _) => destruct c
  end.

Lemma steady_deserialize_g gam data c :
  steady gam -> steady (deserialize_g E gam data c).
Proof. intros Hg. unfold deserialize_g. repeat (steady_step || assumption). Qed.

Lemma steady_serialize_g gam data : steady gam -> steady (serialize_g E gam data).
Proof. intros Hg. unfold serialize_g. destruct data; repeat (steady_step || assumption). Qed.

Lemma steady_prepare_request_g gam a b p :
  steady gam -> steady (prepare_request_g E gam a b p).
Proof.
  intros Hg. unfold prepare_request_g. cbv zeta.
  destruct b as [v|];
    repeat (steady_step || apply steady_serialize_g || assumption).
Qed.

Lemma steady_handle_response_g gam c r bd :
  steady gam -> steady (handle_response_g E gam c r bd).
Proof.
  intros Hg. unfold handle_response_g, handle_fault_response_g. cbv zeta.
  repeat (steady_step || apply steady_deserialize_g || assumption).
Qed.

Lemma steady_do_request_g gam m a b p :
  steady gam -> steady (do_request_g E gam m a b p).
Proof.
  intros Hg. unfold do_request_g.
  apply steady_bind; [apply steady_prepare_request_g, Hg|]. intros [[url sb] ct].
  apply steady_bind; [apply steady_http|]. intros [[c r] bd].
  apply steady_handle_response_g, Hg.
Qed.

Lemma steady_retry_loop n i att : steady att -> steady (retry_loop n i att).
Proof.
  intros Ha. revert i. induction n as [|n IH]; intros i; cbn [retry_loop].
  - repeat steady_step.
  - apply steady_catch; [exact Ha|]. intros e.
    destruct e; repeat (steady_step || apply IH).
Qed.

Lemma steady_retry_request_g gam m a b p :
  steady gam -> steady (retry_request_g E gam m a b p).
Proof.
  intros Hg. unfold retry_request_g. steady_step; [apply steady_get_self|].
  apply steady_retry_loop, steady_do_request_g, Hg.
Qed.

Lemma steady_with_params {A} kw (f : M A) : steady f -> steady (with_params kw f).
Proof.
  intros Hf. unfold with_params. cbv zeta.
  destruct (assoc "format" kw); repeat (steady_step || assumption).
Qed.

Lemma steady_get_attr_metadata lvl : steady (get_attr_metadata E lvl).
Proof.
  induction lvl as [|l IH]; cbn [get_attr_metadata]; cbv zeta;
    repeat (steady_step || assumption
            || (unfold list_extensions_g; apply steady_with_params, steady_retry_request_g)).
Qed.

Lemma steady_metadata : steady (metadata E).
Proof. apply steady_get_attr_metadata. Qed.

Lemma steady_do_request m a b p : steady (do_request E m a b p).
Proof. apply steady_do_request_g, steady_metadata. Qed.









(** *** The retry loop in any format *)

Lemma retry_loop_exhausted att secs r_last : forall k i st,
  steady att -> secs = retry_interval st -> i + k = retries st ->
  (forall j, j < k ->
     exists r, fst (att (after_attempts att secs j st)) = Raised (ConnectionFailed r)) ->
  fst (att (after_attempts att secs k st)) = Raised (ConnectionFailed r_last) ->
  fst (retry_loop (S k) i att st)
  = Raised (ConnectionFailed (if raise_errors st then r_last
                              else retry_failure_msg (retries st))).
Proof.
  induction k as [|k IH]; intros i st Ha Hsecs Hi Hj Hl; subst secs;
    rewrite retry_loop_S; unfold catch.
  - simpl in Hl. destruct (att st) as [o st1] eqn:Eatt. simpl in Hl. subst o.
    destruct (Ha _ _ _ Eatt) as (Hr & He & _ & _).
    cbv [bind get_self].
    replace (Nat.ltb i (retries st1)) with false by (symmetry; apply Nat.ltb_ge; lia).
    rewrite He. destruct (raise_errors st); [reflexivity|].
    simpl. rewrite Hr. reflexivity.
  - destruct (Hj 0 ltac:(lia)) as [r0 H0]. simpl in H0.
    destruct (att st) as [o st1] eqn:Eatt. simpl in H0. subst o.
    destruct (Ha _ _ _ Eatt) as (Hr & He & Hri & _).
    cbv [bind get_self].
    replace (Nat.ltb i (retries st1)) with true by (symmetry; apply Nat.ltb_lt; lia).
    set (st2 := snd (sleep (retry_interval st) st1)).
    assert (Hsl : sleep (retry_interval st1) st1 = (Ok tt, st2))
      by (unfold st2; rewrite Hri; reflexivity).
    rewrite Hsl.
    assert (H2 : retries st2 = retries st /\ raise_errors st2 = raise_errors st
                 /\ retry_interval st2 = retry_interval st)
      by (unfold st2; simpl; auto).
    destruct H2 as (H2r & H2e & H2i).
    rewrite (IH (S i) st2); [rewrite H2r, H2e; reflexivity | exact Ha | congruence | lia | |].
    + intros j Hjk. destruct (Hj (S j) ltac:(lia)) as [r Hr'].
      cbn [after_attempts] in Hr'. rewrite Eatt in Hr'. cbn [snd] in Hr'.
      exists r. exact Hr'.
    + cbn [after_attempts] in Hl. rewrite Eatt in Hl. cbn [snd] in Hl.
      exact Hl.
Qed.

(** *** Pages in any format *)




Lemma list_all_one_get coll path params st page items st1 :
  get E path None (Some params) st = (Ok page, st1) ->
  getitem page coll = Ok (VList items) ->
  next_params page coll (link_direction params) = Ok None ->
  list_all E coll path params st = (Ok (VDict [(coll, VList items)]), st1).
Proof.
  intros Hg Hi Hn. unfold list_all, pagination. cbv [bind get_self].
  fold (link_direction params).
  rewrite (pagination_loop_step _ _ coll path _ params [] st page _ _ _ Hg
             (list_consume_page coll [] page items _ Hi) Hn).
  reflexivity.
Qed.


(** C6: a page whose ['<collection>_links'] entry is absent, or lists only
    links of other rels, ends the pagination: [list] makes that page's GET
    request alone, in any format, and returns that page's items.  In the
    JSON format this GET is the only request sent. *)
Theorem list_all_stops_without_link coll path params :
  (forall st page items st1,
     get E path None (Some params) st = (Ok page, st1) ->
     getitem page coll = Ok (VList items) ->
     no_link_for page coll (link_direction params) ->
     list_all E coll path params st = (Ok (VDict [(coll, VList items)]), st1))
  /\ (forall st t rest page items,
     is_json (format st) = true ->
     script st = t :: rest ->
     page_answer t coll page items ->
     no_link_for page coll (link_direction params) ->
     exists rq,
       list_all E coll path params st
       = (Ok (VDict [(coll, VList items)]), called st rq rest)
       /\ rq_method rq = "GET").
Proof.
  split.
  - intros st page items st1 Hg Hi L.
    exact (list_all_one_get coll path params st page items st1 Hg Hi
             (next_params_none page coll _ L)).
  - intros st t rest page items Hj Hs P L.
    pose proof P as (_ & _ & _ & _ & _ & _ & _ & Hi).
    eexists. split.
    + exact (list_all_one_get coll path params st page items _
               (get_json_ok path (Some params) st t rest coll page items Hj Hs P) Hi
               (next_params_none page coll _ L)).
    + reflexivity.
Qed.

Lemma handle_fault_response_raises code body st :
  exists e st', handle_fault_response E code body st = (Raised e, st').
Proof.
  unfold handle_fault_response, handle_fault_response_g. cbv [bind catch raise].
  destruct (deserialize_g E (metadata E) body code st) as [[v|e] st'];
    [|destruct (ret (VDict [("message", VStr body)]) st') as [[v|e'] st'']];
    eauto.
Qed.

Lemma handle_fault_json code body st :
  is_json (format st) = true -> code <> 204%Z ->
  handle_fault_response E code body st
  = (Raised (exception_handler_v10 E code
               (match json_loads body with
                | Some v => v
                | None => VDict [("message", VStr body)]
                end)), st).
Proof.
  intros Hj Hc. unfold handle_fault_response, handle_fault_response_g, deserialize_g.
  destruct (Z.eqb_spec code 204) as [->|_]; [congruence|].
  cbv [bind catch get_self lift raise ret]. rewrite (metadata_json st Hj).
  rewrite (is_json_VStr _ Hj). unfold serializer_deserialize, content_type. simpl.
  destruct (json_loads body); reflexivity.
Qed.

(** C1: for a response with status 200, 201, 202 or 204, [do_request]
    returns what [deserialize] gives on the raw body: for 204 the raw body
    itself, in any format and whatever the body; for 200, 201 and 202 in the
    JSON format the parsed body when it is valid JSON, and
    [MalformedResponseBody] is raised when it is not. *)
Theorem do_request_success_status m a b p st url sb ct st1 code reason body rest :
  prepare_request E a b p st = (Ok (url, sb, ct), st1) ->
  script st1 = TResp code reason body :: rest ->
  success_status code = true ->
  let st2 := called st1 (mkRequest m url sb ct) rest in
  do_request E m a b p st = deserialize E body code st2
  /\ (code = 204%Z -> do_request E m a b p st = (Ok (VStr body), st2))
  /\ (code <> 204%Z -> is_json (format st1) = true ->
      do_request E m a b p st
      = (match json_loads body with
         | Some v => Ok v
         | None => Raised (MalformedResponseBody "Cannot understand JSON")
         end, st2)).
Proof.
  intros Hp Hs Hc st2.
  assert (Hd : do_request E m a b p st = deserialize E body code st2).
  { rewrite (do_request_step m a b p st _ _ _ _ Hp), http_call, Hs.
    unfold handle_response_g. simpl. rewrite Hc. reflexivity. }
  split; [exact Hd|split].
  - intros ->. rewrite Hd. reflexivity.
  - intros H204 Hj. rewrite Hd. unfold deserialize, deserialize_g.
    destruct (Z.eqb_spec code 204) as [->|_]; [congruence|].
    cbv [bind get_self lift]. rewrite (metadata_json st2 Hj).
    unfold st2, called. simpl. rewrite (is_json_VStr _ Hj).
    unfold serializer_deserialize, content_type. simpl.
    destruct (json_loads body); reflexivity.
Qed.

(** C2: for a response whose status is not 200, 201, 202 or 204,
    [do_request] raises and returns no value; the raw body, or the reason
    phrase when the body is empty, goes to [_handle_fault_response], which
    deserializes it and hands it to [exception_handler_v10]. *)
Theorem do_request_error_status m a b p st url sb ct st1 code reason body rest :
  prepare_request E a b p st = (Ok (url, sb, ct), st1) ->
  script st1 = TResp code reason body :: rest ->
  success_status code = false ->
  let st2 := called st1 (mkRequest m url sb ct) rest in
  do_request E m a b p st
  = handle_fault_response E code (if String.eqb body "" then reason else body) st2
  /\ exists e st', do_request E m a b p st = (Raised e, st').
Proof.
  intros Hp Hs Hc st2.
  assert (Hd : do_request E m a b p st
               = handle_fault_response E code
                   (if String.eqb body "" then reason else body) st2).
  { rewrite (do_request_step m a b p st _ _ _ _ Hp), http_call, Hs.
    unfold handle_response_g. simpl. rewrite Hc. reflexivity. }
  split; [exact Hd|]. rewrite Hd. apply handle_fault_response_raises.
Qed.


(** C4: a POST is sent once: when its transport call fails, the
    [ConnectionFailed] propagates at once, whatever the retry count; in the
    JSON format nothing is sent before it, so it is the only call. *)
Theorem post_not_retried :
  (forall a b p st url sb ct st1 r rest,
     prepare_request E a b p st = (Ok (url, sb, ct), st1) ->
     script st1 = TFail r :: rest ->
     post E a b p st
     = (Raised (ConnectionFailed r), called st1 (mkRequest "POST" url sb ct) rest))
  /\ (forall a b p st sb r rest,
     is_json (format st) = true -> json_request_body E b = Ok sb ->
     script st = TFail r :: rest ->
     post E a b p st
     = (Raised (ConnectionFailed r),
        called st (mkRequest "POST" (request_action E (format st) a p) sb
                     "application/json") rest)).
Proof.
  assert (G : forall a b p st url sb ct st1 r rest,
     prepare_request E a b p st = (Ok (url, sb, ct), st1) ->
     script st1 = TFail r :: rest ->
     post E a b p st
     = (Raised (ConnectionFailed r), called st1 (mkRequest "POST" url sb ct) rest)).
  { intros a b p st url sb ct st1 r rest Hp Hs. unfold post.
    rewrite (do_request_step "POST" a b p st _ _ _ _ Hp), http_call, Hs.
    reflexivity. }
  split; [exact G|].
  intros a b p st sb r rest Hj Hb Hs.
  exact (G a b p st _ _ _ st r rest (prepare_json st a b p sb Hj Hb) Hs).
Qed.

(** C7: for status 404 and the body [{"ApmecError": {"type": "MeaNotFound",
    "message": "MEA x not found"}}] with no "detail" key, the read of
    "detail" fails and [ApmecClientException] is raised with status 404 and
    the ApmecError dict itself as message; with a "detail" key that is
    empty or null, the class named "MeaNotFoundClient", else the one of
    status 404, else [ApmecClientException], is raised with status 404 and
    message "MEA x not found". *)
Theorem classifier_apmec_error_404 :
  exception_handler_v10 E 404
    (VDict [("ApmecError", VDict [("type", VStr "MeaNotFound");
                                  ("message", VStr "MEA x not found")])])
  = ApmecClientException 404
      (VDict [("type", VStr "MeaNotFound"); ("message", VStr "MEA x not found")])
  /\ forall detail, truthy detail = false ->
     exception_handler_v10 E 404
       (VDict [("ApmecError", VDict [("type", VStr "MeaNotFound");
                                     ("message", VStr "MEA x not found");
                                     ("detail", detail)])])
     = match exc_class E "MeaNotFoundClient" with
       | Some cls => ClientExc cls 404 (VStr "MEA x not found")
       | None =>
           match http_exception_map E 404 with
           | Some cls => ClientExc cls 404 (VStr "MEA x not found")
           | None => ApmecClientException 404 (VStr "MEA x not found")
           end
       end.
Proof.
  split; [reflexivity|].
  intros detail Hd. unfold exception_handler_v10. simpl.
  unfold apmec_error_fields. simpl. rewrite Hd. reflexivity.
Qed.

(** C8: in the JSON format, for status 500 and the plain-text body
    [internal error] (not valid JSON), [_handle_fault_response] wraps the text
    as [{'message': ...}] and [do_request] raises [ApmecClientException] with
    status 500 and message "internal error"; when the body is the JSON
    string ["internal error"], which deserializes to a str (not a mapping),
    the message is "500-internal error". *)
Theorem do_request_500_text_bodies m a b p st sb reason rest :
  is_json (format st) = true -> json_request_body E b = Ok sb ->
  (script st = TResp 500 reason "internal error" :: rest ->
   fst (do_request E m a b p st)
   = Raised (ApmecClientException 500 (VStr "internal error")))
  /\ (script st = TResp 500 reason (quoted "internal error") :: rest ->
      fst (do_request E m a b p st)
      = Raised (ApmecClientException 500 (VStr "500-internal error"))).
Proof.
  intros Hj Hb. pose proof (prepare_json st a b p sb Hj Hb) as Hp.
  split; intros Hs;
    rewrite (do_request_step m a b p st _ _ _ _ Hp), http_call, Hs;
    cbv beta iota; unfold handle_response_g;
    change (handle_fault_response_g E (metadata E)) with (handle_fault_response E);
    rewrite (eq_refl : success_status 500 = false).
  - rewrite (eq_refl : String.eqb "internal error" "" = false).
    rewrite handle_fault_json by (simpl; assumption || discriminate). reflexivity.
  - rewrite (eq_refl : String.eqb (quoted "internal error") "" = false).
    rewrite handle_fault_json by (simpl; assumption || discriminate). reflexivity.
Qed.

(** C9: in any format, when every attempt of [retry_request] raises
    [ConnectionFailed] (attempt [j + 1] runs after [j] attempts, each
    followed by a sleep), the failure of the last attempt (attempt
    [retries + 1]) is re-raised when [raise_errors] is set; otherwise
    [ConnectionFailed] is raised with "Failed to connect to Apmec server
    after N attempts", N = retries + 1, when retries > 0, and with "Failed
    to connect Apmec server" when retries = 0. *)
Theorem retry_exhausted_error m a b p st r_last :
  (forall j, j < retries st ->
     exists r, fst (do_request E m a b p
                      (after_attempts (do_request E m a b p) (retry_interval st) j st))
               = Raised (ConnectionFailed r)) ->
  fst (do_request E m a b p
         (after_attempts (do_request E m a b p) (retry_interval st) (retries st) st))
  = Raised (ConnectionFailed r_last) ->
  fst (retry_request E m a b p st)
  = Raised (ConnectionFailed
      (if raise_errors st then r_last
       else match retries st with
            | O => "Failed to connect Apmec server"
            | S _ => "Failed to connect to Apmec server after "
                     ++ nat_to_string (S (retries st)) ++ " attempts"
            end)).
Proof.
  intros Hj Hl. unfold retry_request, retry_request_g. cbv [bind get_self].
  exact (retry_loop_exhausted (do_request E m a b p) (retry_interval st) r_last
           (retries st) 0 st (steady_do_request m a b p) eq_refl eq_refl Hj Hl).
Qed.

(** ** Further properties of the runtime *)

Lemma assoc_some_nonempty {A} k (kvs : list (string * A)) v :
  assoc k kvs = Some v -> kvs <> [].
Proof. destruct kvs; simpl; congruence. Qed.

Lemma truthy_dict_assoc k kvs v : assoc k kvs = Some v -> truthy (VDict kvs) = true.
Proof. destruct kvs; simpl; [discriminate | reflexivity]. Qed.

(** [exception_handler_v10]: a non-empty str "detail" is appended to the
    message on a new line. *)
Theorem classifier_detail_appended code ckvs kvs t msg d :
  assoc "ApmecError" ckvs = Some (VDict kvs) ->
  assoc "type" kvs = Some t -> assoc "message" kvs = Some (VStr msg) ->
  assoc "detail" kvs = Some (VStr d) -> d <> "" ->
  exception_handler_v10 E code (VDict ckvs)
  = match exc_class E (py_str (unicode_isprintable E) t ++ "Client") with
    | Some cls => ClientExc cls code (VStr (msg ++ newline ++ d))
    | None =>
        match http_exception_map E code with
        | Some cls => ClientExc cls code (VStr (msg ++ newline ++ d))
        | None => ApmecClientException code (VStr (msg ++ newline ++ d))
        end
    end.
Proof.
  intros Ha Ht Hm Hd Hne. unfold exception_handler_v10. rewrite Ha.
  rewrite (truthy_dict_assoc _ _ _ Ht). unfold apmec_error_fields. simpl.
  rewrite Ht, Hm, Hd. simpl.
  replace (negb (d =? "")) with true
    by (destruct (String.eqb_spec d ""); [congruence | reflexivity]).
  reflexivity.
Qed.

(** [exception_handler_v10]: when the "ApmecError" entry is truthy but is
    not a dict, or lacks one of "type", "message", "detail", or has a truthy
    "detail" that is not a str, [ApmecClientException] is raised with that
    entry itself as message. *)
Theorem classifier_bad_apmec_error code ckvs ed :
  assoc "ApmecError" ckvs = Some ed -> truthy ed = true ->
  (forall kvs, ed = VDict kvs ->
     assoc "type" kvs = None \/ assoc "message" kvs = None \/ assoc "detail" kvs = None
     \/ exists dt, assoc "detail" kvs = Some dt /\ truthy dt = true
                   /\ forall s, dt <> VStr s) ->
  exception_handler_v10 E code (VDict ckvs) = ApmecClientException code ed.
Proof.
  intros Ha Ht Hc. unfold exception_handler_v10. rewrite Ha, Ht.
  destruct ed as [| | | | | | kvs]; try reflexivity.
  unfold apmec_error_fields. simpl.
  destruct (Hc kvs eq_refl) as [H|[H|[H|(dt & H & Hdt & Hns)]]]; rewrite H;
    try (destruct (assoc "type" kvs), (assoc "message" kvs); reflexivity).
  destruct (assoc "type" kvs), (assoc "message" kvs); try reflexivity.
  rewrite Hdt. destruct dt; try reflexivity. exfalso; eapply Hns; reflexivity.
Qed.

(** [exception_handler_v10] without an "ApmecError" entry: a body that is
    not a dict gives the message "<status>-<str(body)>"; a dict with a
    truthy "message" gives that message. *)
Theorem classifier_without_apmec_error code content :
  ((forall kvs, content <> VDict kvs) ->
   exception_handler_v10 E code content
   = ApmecClientException code (VStr (z_to_string code ++ "-" ++ py_str (unicode_isprintable E) content)))
  /\ (forall ckvs m, content = VDict ckvs ->
      (forall ed, assoc "ApmecError" ckvs = Some ed -> truthy ed = false) ->
      assoc "message" ckvs = Some m -> truthy m = true ->
      exception_handler_v10 E code content = ApmecClientException code m).
Proof.
  split.
  - intros Hnd. unfold exception_handler_v10.
    destruct content; try reflexivity. exfalso; eapply Hnd; reflexivity.
  - intros ckvs m -> Hae Hm Ht. unfold exception_handler_v10.
    destruct (assoc "ApmecError" ckvs) as [ed|] eqn:Ha.
    + rewrite (Hae ed eq_refl), Hm, Ht. reflexivity.
    + simpl. rewrite Hm, Ht. reflexivity.
Qed.

(** [do_request] with a truthy body that is not a dict raises the
    serializer's error before any request, and leaves the client as it was,
    whatever the format. *)
Theorem do_request_body_not_dict m a b p st :
  truthy b = true -> (forall kvs, b <> VDict kvs) ->
  do_request E m a (Some b) p st = (Raised (SerializeError (py_type_name b)), st).
Proof.
  intros Ht Hnd. unfold do_request, do_request_g, prepare_request_g.
  cbv [bind get_self]. rewrite Ht.
  destruct b; try reflexivity; try discriminate. exfalso; eapply Hnd; reflexivity.
Qed.

(** [do_request] with a falsy body ([{}], [[]], [''], [0], [None], ...)
    sends no body: nothing is serialized, no metadata is fetched, even in
    the XML format, and the call is the one made without a body. *)
Theorem do_request_falsy_body m a b p st :
  truthy b = false ->
  prepare_request E a (Some b) p st
  = (Ok (request_action E (format st) a p, None, content_type E (format st)), st)
  /\ do_request E m a (Some b) p st = do_request E m a None p st.
Proof.
  intros Hf. split.
  - unfold prepare_request, prepare_request_g. cbv [bind get_self ret]. rewrite Hf.
    reflexivity.
  - unfold do_request, do_request_g, prepare_request_g. cbv [bind get_self ret].
    rewrite Hf. reflexivity.
Qed.

(** [retry_request] retries only [ConnectionFailed]: any other exception
    of the first attempt (an error status, a malformed body, ...) propagates
    after that single attempt. *)
Theorem retry_request_other_errors m a b p st e st1 :
  do_request E m a b p st = (Raised e, st1) -> (forall r, e <> ConnectionFailed r) ->
  retry_request E m a b p st = (Raised e, st1).
Proof.
  intros Hd Hne. unfold retry_request, retry_request_g. cbv [bind get_self].
  rewrite retry_loop_S. unfold catch. unfold do_request in Hd. rewrite Hd.
  destruct e; try reflexivity. exfalso; eapply Hne; reflexivity.
Qed.

Lemma retry_loop_recovers m a b p sb c r bd rest v rs : forall n i st,
  is_json (format st) = true -> json_request_body E b = Ok sb ->
  script st = app (map TFail rs) (TResp c r bd :: rest) ->
  i + length rs <= retries st -> length rs <= n ->
  success_status c = true -> c <> 204%Z -> json_loads bd = Some v ->
  retry_loop (S n) i (do_request E m a b p) st
  = (Ok v, mkClient (format st) (retries st) (raise_errors st) (retry_interval st) rest
             (app (trace st)
                (app (fail_prefix (mkRequest m (request_action E (format st) a p) sb
                                     "application/json")
                        (retry_interval st) (length rs))
                     [ESend (mkRequest m (request_action E (format st) a p) sb
                               "application/json")]))).
Proof.
  induction rs as [|x rs IH]; intros n i st Hj Hb Hs Hi Hn Hc H204 Hv.
  - rewrite retry_loop_S. unfold catch.
    rewrite (do_request_json_ok m a b p st sb c r bd rest v Hj Hb Hs Hc H204 Hv).
    reflexivity.
  - destruct n as [|n]; [simpl in Hn; lia|].
    rewrite retry_loop_S. unfold catch.
    rewrite (do_request_step m a b p st _ _ _ _ (prepare_json st a b p sb Hj Hb)).
    rewrite http_call, Hs. cbv [bind get_self called]. cbn -[retry_loop do_request Nat.ltb].
    replace (Nat.ltb i (retries st)) with true
      by (symmetry; apply Nat.ltb_lt; simpl in Hi; lia).
    unfold sleep. cbn -[retry_loop do_request Nat.ltb].
    rewrite (IH n (S i)); cbn -[retry_loop do_request Nat.ltb]; auto;
      try (simpl in *; lia).
    rewrite <- !app_assoc. reflexivity.
Qed.

(** [retry_request] in the JSON format: when the first [k] attempts fail
    with [ConnectionFailed] and [k <= retries], the next attempt's answer is
    returned; the client made [k + 1] calls with a sleep after each failed
    one. *)
Theorem retry_request_recovers m a b p st sb rs c r bd rest v :
  is_json (format st) = true -> json_request_body E b = Ok sb ->
  script st = app (map TFail rs) (TResp c r bd :: rest) -> length rs <= retries st ->
  success_status c = true -> c <> 204%Z -> json_loads bd = Some v ->
  retry_request E m a b p st
  = (Ok v, mkClient (format st) (retries st) (raise_errors st) (retry_interval st) rest
             (app (trace st)
                (app (fail_prefix (mkRequest m (request_action E (format st) a p) sb
                                     "application/json")
                        (retry_interval st) (length rs))
                     [ESend (mkRequest m (request_action E (format st) a p) sb
                               "application/json")]))).
Proof.
  intros Hj Hb Hs Hl Hc H204 Hv. unfold retry_request, retry_request_g. cbv [bind get_self].
  apply (retry_loop_recovers m a b p sb c r bd rest v rs (retries st) 0 st); auto.
Qed.




(** [_pagination] stops at the first link that has no "rel", or whose rel
    is the direction but has no "href" (the [KeyError] ends the loop), even
    when a later link would lead on: in any format, [list] makes the GET of
    the first page alone and returns its items. *)
Theorem list_all_stops_at_incomplete_link coll path params st page items st1
    pre kvs post :
  get E path None (Some params) st = (Ok page, st1) ->
  getitem page coll = Ok (VList items) ->
  getitem page (coll ++ "_links") = Ok (VList (app pre (VDict kvs :: post))) ->
  Forall (other_link (link_direction params)) pre ->
  assoc "rel" kvs = None
  \/ (assoc "rel" kvs = Some (VStr (link_direction params)) /\ assoc "href" kvs = None) ->
  list_all E coll path params st = (Ok (VDict [(coll, VList items)]), st1).
Proof.
  intros Hg Hi Hl Hpre Hk.
  apply (list_all_one_get coll path params st page items st1 Hg Hi).
  unfold next_params. rewrite Hl. simpl. rewrite scan_links_skip by exact Hpre.
  simpl. destruct Hk as [Hr | [Hr Hh]]; rewrite Hr; [reflexivity|].
  rewrite String.eqb_refl. simpl. rewrite Hh. reflexivity.
Qed.

(** [list] raises, in any format, when the first page has no [collection]
    entry ([KeyError] when the page is a dict), with the client as the GET
    of that page left it. *)
Theorem list_all_page_without_collection coll path params st page st1 :
  get E path None (Some params) st = (Ok page, st1) ->
  (forall kvs, page = VDict kvs -> assoc coll kvs = None) ->
  exists e,
    list_all E coll path params st = (Raised e, st1)
    /\ (forall kvs, page = VDict kvs -> e = KeyError coll).
Proof.
  intros Hg Hk.
  unfold list_all, pagination. cbv [bind get_self]. cbn [pagination_loop].
  cbv [bind]. rewrite Hg. cbv [lift ret raise].
  destruct page as [| | | | | | kvs]; unfold getitem;
    try (eexists; split; [reflexivity | intros ? Hd; discriminate]).
  rewrite (Hk kvs eq_refl). eexists; split; [reflexivity|].
  intros ? _; reflexivity.
Qed.

Lemma kwargs_free_find names kw :
  kwargs_free names kw = true ->
  find (fun '(k, _) => existsb (String.eqb k) names) kw = None.
Proof.
  unfold kwargs_free. intros H. apply Bool.negb_true_iff in H.
  induction kw as [|[k v] kw IH]; simpl in *; auto.
  apply Bool.orb_false_iff in H. destruct H as [H1 H2]. rewrite H1. auto.
Qed.

Lemma api_call_run {A} names kw (f : M A) st :
  kwargs_free names kw = true ->
  api_call names kw f st
  = match f (call_state kw st) with
    | (Ok a, st1) => (Ok a, with_format st1 (format st))
    | (Raised e, st1) => (Raised e, st1)
    end.
Proof.
  intros Hk. unfold api_call, with_params, call_state. rewrite (kwargs_free_find _ _ Hk).
  cbv [bind get_self ret set_format].
  destruct (assoc "format" kw); destruct (f _) as [[a|e] st1]; reflexivity.
Qed.

Lemma kwargs_free_sub names names' kw :
  (forall x, In x names -> In x names') ->
  kwargs_free names' kw = true -> kwargs_free names kw = true.
Proof.
  unfold kwargs_free. intros Hin H. apply Bool.negb_true_iff in H.
  apply Bool.negb_true_iff. induction kw as [|[k v] kw IH]; simpl in *; auto.
  apply Bool.orb_false_iff in H. destruct H as [H1 H2].
  apply Bool.orb_false_iff. split; auto.
  destruct (existsb (String.eqb k) names) eqn:E1; auto.
  apply existsb_exists in E1. destruct E1 as (x & Hx & Hkx).
  apply String.eqb_eq in Hkx. subst x.
  assert (existsb (String.eqb k) names' = true)
    by (apply existsb_exists; exists k; split; auto; apply String.eqb_refl).
  congruence.
Qed.

Lemma kwargs_free_list kw :
  kwargs_free ["self"; "collection"; "path"; "retrieve_all"] kw = true ->
  kwargs_free ["self"; "retrieve_all"] kw = true.
Proof. apply kwargs_free_sub. intros x Hx. simpl in *. tauto. Qed.

Lemma kwargs_free_dict_set names k v kw :
  existsb (String.eqb k) names = false ->
  kwargs_free names kw = true -> kwargs_free names (dict_set k v kw) = true.
Proof.
  unfold kwargs_free. intros Hk H. apply Bool.negb_true_iff in H.
  apply Bool.negb_true_iff. revert H. induction kw as [|[k' v'] kw IH]; simpl.
  - intros _. rewrite Hk. reflexivity.
  - intros H. apply Bool.orb_false_iff in H. destruct H as [H1 H2].
    destruct (String.eqb k k'); simpl; apply Bool.orb_false_iff; split; auto.
Qed.

Lemma assoc_dict_set_same {A} k (v : A) kvs : assoc k (dict_set k v kvs) = Some v.
Proof.
  induction kvs as [|[k' v'] kvs IH]; simpl.
  - rewrite String.eqb_refl. reflexivity.
  - destruct (String.eqb_spec k k') as [->|Hne]; simpl.
    + rewrite String.eqb_refl. reflexivity.
    + apply String.eqb_neq in Hne. rewrite Hne. exact IH.
Qed.

Lemma utf8_chars_head c r : exists g gs, utf8_chars (String c r) = String c g :: gs.
Proof.
  simpl. destruct (utf8_chars r) as [|[|d g] gs]; eauto.
  destruct (is_cont d); eauto.
Qed.

Lemma utf8_chars_cons_length c r :
  length (utf8_chars (String c r))
  = match r with
    | String d _ => if is_cont d then length (utf8_chars r) else S (length (utf8_chars r))
    | EmptyString => 1
    end.
Proof.
  destruct r as [|d r0]; [reflexivity|].
  destruct (utf8_chars_head d r0) as (g & gs & H).
  change (utf8_chars (String c (String d r0)))
    with (match utf8_chars (String d r0) with
          | String d' g :: gs =>
              if is_cont d' then String c (String d' g) :: gs
              else String c EmptyString :: String d' g :: gs
          | gs => String c EmptyString :: gs
          end).
  rewrite H. destruct (is_cont d); reflexivity.
Qed.

Lemma str_len_cons_le c r : str_len (String c r) <= S (str_len r).
Proof.
  unfold str_len. rewrite utf8_chars_cons_length.
  destruct r as [|d r0]; [simpl; lia|]. destruct (is_cont d); lia.
Qed.

Lemma str_len_append s t : str_len (s ++ t) <= str_len s + str_len t.
Proof.
  induction s as [|c s IH]; [simpl; lia|].
  destruct s as [|d s'].
  - simpl (String c "" ++ t). pose proof (str_len_cons_le c t).
    replace (str_len (String c "")) with 1 by reflexivity. lia.
  - change (String c (String d s') ++ t) with (String c (String d (s' ++ t))).
    change (String d s' ++ t) with (String d (s' ++ t)) in IH.
    unfold str_len in *.
    rewrite (utf8_chars_cons_length c (String d (s' ++ t))),
      (utf8_chars_cons_length c (String d s')).
    destruct (is_cont d); lia.
Qed.

Lemma utf8_chars_single s : Forall (fun g => str_len g <= 1) (utf8_chars s).
Proof.
  induction s as [|c s IH]; simpl; [constructor|].
  destruct (utf8_chars s) as [|[|d g] gs] eqn:H.
  - constructor; [reflexivity|constructor].
  - constructor; [apply le_n|exact IH].
  - destruct (is_cont d) eqn:Hc.
    + inversion IH as [|x l Hx Hr]; subst. constructor; [|exact Hr].
      unfold str_len in *. rewrite utf8_chars_cons_length. rewrite Hc. exact Hx.
    + constructor; [apply le_n|exact IH].
Qed.

Lemma str_len_concat gs :
  Forall (fun g => str_len g <= 1) gs -> str_len (fold_right String.append "" gs) <= length gs.
Proof.
  induction 1 as [|g gs Hg _ IH]; simpl; [apply le_n|].
  pose proof (str_len_append g (fold_right String.append "" gs)). lia.
Qed.

Lemma Forall_firstn' {A} (P : A -> Prop) n l : Forall P l -> Forall P (firstn n l).
Proof.
  revert l. induction n as [|n IH]; intros l H; simpl; [constructor|].
  destruct H; constructor; auto.
Qed.

Lemma str_prefix_length n s : str_len (str_prefix n s) <= n.
Proof.
  unfold str_prefix.
  pose proof (str_len_concat _ (Forall_firstn' _ n _ (utf8_chars_single s))).
  pose proof (firstn_le_length n (utf8_chars s)). lia.
Qed.

Lemma cut_field_at_most limit key item :
  field_at_most key (limit + 3) (cut_field limit key item).
Proof.
  intros kvs' s' Heq Has. destruct item as [| | | | |l|kvs]; simpl in Heq;
    try discriminate.
  destruct (assoc key kvs) as [[| | | |s| |]|] eqn:A;
    try (inversion Heq; subst; congruence).
  destruct (Nat.ltb limit (str_len s)) eqn:L.
  - inversion Heq; subst. rewrite assoc_dict_set_same in Has. inversion Has; subst.
    pose proof (str_len_append (str_prefix limit s) "...").
    pose proof (str_prefix_length limit s).
    replace (str_len "...") with 3 in * by reflexivity. lia.
  - inversion Heq; subst. rewrite A in Has. inversion Has; subst.
    apply Nat.ltb_ge in L. lia.
Qed.

Lemma truncate_get_cut limit key item :
  str_or_null_field key item -> truncate_get limit key item = Ok (cut_field limit key item).
Proof.
  intros (kvs & -> & H). unfold truncate_get, cut_field.
  destruct (assoc key kvs) as [v|] eqn:A; auto.
  destruct (H v eq_refl) as [->|[s ->]]; auto. simpl truthy.
  destruct (String.eqb_spec s "") as [->|Hs]; simpl; auto.
  unfold shorten_value. simpl. destruct (Nat.ltb limit (str_len s)); reflexivity.
Qed.



Lemma map_outcome_ok f g l :
  (forall x, In x l -> f x = Ok (g x)) -> map_outcome f l = Ok (map g l).
Proof.
  induction l as [|x l IH]; intros H; simpl; auto.
  rewrite (H x (or_introl eq_refl)), IH; auto. intros y Hy. apply H. now right.
Qed.


Lemma list_method_run_gen coll path kw f items st st1 :
  kwargs_free ["self"; "collection"; "path"; "retrieve_all"] kw = true ->
  list_all E coll path kw (call_state kw st) = (Ok (VDict [(coll, VList items)]), st1) ->
  api_call ["self"; "retrieve_all"] kw (d <- list_ E coll path true kw;; lift (shorten_listing coll f d)) st
  = match map_outcome f items with
    | Ok ys => (Ok (VDict [(coll, VList ys)]), with_format st1 (format st))
    | Raised e => (Raised e, st1)
    end.
Proof.
  intros Hk Hl. rewrite (api_call_run _ kw _ st (kwargs_free_list kw Hk)).
  unfold list_. rewrite Hk. cbv [bind ret]. rewrite Hl.
  unfold shorten_listing, getitem. simpl assoc. rewrite String.eqb_refl. simpl iter_val.
  simpl dict_set. rewrite String.eqb_refl.
  destruct (map_outcome f items) eqn:Hm; reflexivity.
Qed.


(** [list_meads]: a description longer than 25 characters is cut to its
    first 25 followed by ["..."]; a null, empty or shorter description is
    left as it is, and afterwards no description has more than 28
    characters.  The listing runs in the format given as keyword argument,
    if any, and the caller's format is restored afterwards. *)
Theorem list_meads_truncates kw st items st1 :
  kwargs_free ["self"; "collection"; "path"; "retrieve_all"] kw = true ->
  list_all E "meads" "/meads" kw (call_state kw st)
  = (Ok (VDict [("meads", VList items)]), st1) ->
  Forall (str_or_null_field "description") items ->
  list_meads E true kw st
  = (Ok (VDict [("meads", VList (map (cut_field DEFAULT_DESC_LENGTH "description") items))]),
     with_format st1 (format st))
  /\ Forall (field_at_most "description" 28)
       (map (cut_field DEFAULT_DESC_LENGTH "description") items).
Proof.
  intros Hk Hl Hi. split.
  - unfold list_meads. rewrite (list_method_run_gen _ _ kw _ items st st1 Hk Hl).
    rewrite (map_outcome_ok _ (cut_field DEFAULT_DESC_LENGTH "description")); auto.
    intros x Hx. apply truncate_get_cut. rewrite Forall_forall in Hi. auto.
  - apply Forall_forall. intros y Hy. apply in_map_iff in Hy.
    destruct Hy as (x & <- & _). apply (cut_field_at_most 25).
Qed.



(** With [retrieve_all=False], [list] returns a generator: the truncating
    list methods and the typed event listings, which subscript it, raise
    TypeError before any request, and [list_vims] and [list_events] hand
    back the generator, with no request either. *)
Theorem list_without_retrieve_all kw st :
  kwargs_free ["self"; "collection"; "path"; "retrieve_all"] kw = true ->
  (forall meth,
      In meth [list_meads E false kw; list_meas E false kw; list_mess E false kw;
               list_mecas E false kw; list_mesds E false kw; list_mecads E false kw;
               list_mea_events E false kw; list_mead_events E false kw;
               list_vim_events E false kw] ->
      meth st = (Raised (TypeError "'generator' object is not subscriptable"),
                 call_state kw st))
  /\ list_vims E false kw st
     = (Ok (LGenerator "vims" "/vims" kw), with_format (call_state kw st) (format st))
  /\ list_events E false kw st
     = (Ok (LGenerator "events" "/events" kw), with_format (call_state kw st) (format st)).
Proof.
  intros Hk. pose proof (kwargs_free_list kw Hk) as Hs.
  split; [|split].
  - intros meth Hin.
    assert (Hlist : forall coll path f,
               api_call ["self"; "retrieve_all"] kw (d <- list_ E coll path false kw;;
                            lift (shorten_listing coll f d)) st
               = (Raised (TypeError "'generator' object is not subscriptable"),
                  call_state kw st)).
    { intros coll path f. rewrite (api_call_run _ kw _ st Hs). unfold list_. rewrite Hk.
      reflexivity. }
    assert (Hev : forall rtype,
               list_typed_events E rtype false kw st
               = (Raised (TypeError "'generator' object is not subscriptable"),
                  call_state kw st)).
    { intros rtype. unfold list_typed_events. rewrite (api_call_run _ kw _ st Hs).
      unfold list_. rewrite kwargs_free_dict_set; auto. }
    repeat (destruct Hin as [<-|Hin]; [solve [apply Hlist | apply Hev]|]). destruct Hin.
  - unfold list_vims. rewrite (api_call_run _ kw _ st Hs). unfold list_. rewrite Hk.
    reflexivity.
  - unfold list_events. rewrite (api_call_run _ kw _ st Hs). unfold list_. rewrite Hk.
    reflexivity.
Qed.


(** [create_mead] posts the body with [mead.service_types] set to
    [[{'service_type': 'mead'}]]; a body without a ['mead'] entry raises
    before any request. *)
Theorem create_mead_service_types body st :
  (forall bkvs mkvs,
      body = VDict bkvs -> assoc "mead" bkvs = Some (VDict mkvs) ->
      create_mead E body st
      = match post E "/meads"
                (Some (VDict (dict_set "mead"
                                (VDict (dict_set "service_types"
                                          (VList [VDict [("service_type", VStr "mead")]])
                                          mkvs)) bkvs))) None st with
        | (Ok v, st1) => (Ok v, with_format st1 (format st))
        | (Raised e, st1) => (Raised e, st1)
        end)
  /\ (forall e, getitem body "mead" = Raised e -> create_mead E body st = (Raised e, st)).
Proof.
  split.
  - intros bkvs mkvs -> Hm. unfold create_mead. rewrite (api_call_run _ [] _ st eq_refl).
    unfold call_state. simpl assoc. cbv [bind lift ret]. unfold getitem. rewrite Hm.
    reflexivity.
  - intros e He. unfold create_mead. rewrite (api_call_run _ [] _ st eq_refl).
    unfold call_state. simpl assoc. cbv [bind lift raise]. rewrite He. reflexivity.
Qed.

Lemma call_state_settings kw st :
  retries (call_state kw st) = retries st
  /\ raise_errors (call_state kw st) = raise_errors st
  /\ retry_interval (call_state kw st) = retry_interval st
  /\ script (call_state kw st) = script st
  /\ trace (call_state kw st) = trace st.
Proof. unfold call_state. destruct (assoc "format" kw); repeat split. Qed.

Lemma api_retry_all_fail names kw m a b p sb rs st :
  plain_body (format (call_state kw st)) b -> json_request_body E b = Ok sb ->
  script st = map TFail rs -> kwargs_free names kw = true ->
  api_call names kw (retry_request E m a b p) st
  = (Raised (if raise_errors st then ConnectionFailed (nth (retries st) rs "no response")
             else ConnectionFailed (retry_failure_msg (retries st))),
     mkClient (format (call_state kw st)) (retries st) (raise_errors st) (retry_interval st)
       (map TFail (skipn (S (retries st)) rs))
       (trace st ++ retry_trace (mkRequest m (request_action E (format (call_state kw st)) a p)
                                   sb (content_type E (format (call_state kw st))))
                      (retry_interval st) (retries st))).
Proof.
  intros Hp Hb Hs Hk. rewrite (api_call_run _ kw _ st Hk).
  destruct (call_state_settings kw st) as (H1 & H2 & H3 & H4 & H5).
  rewrite (retry_request_all_fail m a b p sb rs (call_state kw st) Hp Hb) by congruence.
  rewrite H1, H2, H3, H5. reflexivity.
Qed.

(** The show, delete and update methods of the resources go through
    [retry_request]: when every answer is a connection failure, each one
    makes [retries + 1] attempts with a sleep between two, then raises.  A
    show method runs in the format given as keyword argument, if any, in
    any format; the keyword arguments [kw] name none of its positional
    parameters.  A delete method runs in the client's format, in any
    format.  An update method does so in the JSON format, or when its body
    is falsy; otherwise its body is serialized after a metadata fetch. *)
Theorem resource_calls_retried id b sb kw st rs :
  script st = map TFail rs ->
  kwargs_free ["self"; "ext_alias"; "mead"; "mea"; "vim"; "event_id"; "mesd"; "mes";
               "mecad"; "meca"] kw = true ->
  (forall call path,
    In (call, path)
      [(show_extension E id kw, "/extensions/" ++ id); (show_mead E id kw, "/meads/" ++ id);
       (show_mea E id kw, "/meas/" ++ id); (show_vim E id kw, "/vims/" ++ id);
       (show_event E id kw, "/events/" ++ id); (show_mesd E id kw, "/mesds/" ++ id);
       (show_mes E id kw, "/mess/" ++ id); (show_mecad E id kw, "/mecads/" ++ id);
       (show_meca E id kw, "/mecas/" ++ id)] ->
    call st
    = (Raised (if raise_errors st then ConnectionFailed (nth (retries st) rs "no response")
               else ConnectionFailed (retry_failure_msg (retries st))),
       mkClient (format (call_state kw st)) (retries st) (raise_errors st) (retry_interval st)
         (map TFail (skipn (S (retries st)) rs))
         (trace st ++ retry_trace (mkRequest "GET"
                                     (request_action E (format (call_state kw st)) path
                                        (Some kw))
                                     None (content_type E (format (call_state kw st))))
                        (retry_interval st) (retries st))))
  /\ (forall call path,
    In (call, path)
      [(delete_mead E id, "/meads/" ++ id); (delete_mea E id, "/meas/" ++ id);
       (delete_vim E id, "/vims/" ++ id); (delete_mesd E id, "/mesds/" ++ id);
       (delete_mes E id, "/mess/" ++ id); (delete_mecad E id, "/mecads/" ++ id);
       (delete_meca E id, "/mecas/" ++ id)] ->
    call st
    = (Raised (if raise_errors st then ConnectionFailed (nth (retries st) rs "no response")
               else ConnectionFailed (retry_failure_msg (retries st))),
       mkClient (format st) (retries st) (raise_errors st) (retry_interval st)
         (map TFail (skipn (S (retries st)) rs))
         (trace st ++ retry_trace (mkRequest "DELETE" (request_action E (format st) path None)
                                     None (content_type E (format st)))
                        (retry_interval st) (retries st))))
  /\ (plain_body (format st) (Some b) -> json_request_body E (Some b) = Ok sb ->
      forall call path,
      In (call, path)
        [(update_mea E id b, "/meas/" ++ id); (update_vim E id b, "/vims/" ++ id);
         (update_mes E id b, "/mess/" ++ id); (update_meca E id b, "/mecas/" ++ id)] ->
      call st
      = (Raised (if raise_errors st then ConnectionFailed (nth (retries st) rs "no response")
                 else ConnectionFailed (retry_failure_msg (retries st))),
         mkClient (format st) (retries st) (raise_errors st) (retry_interval st)
           (map TFail (skipn (S (retries st)) rs))
           (trace st ++ retry_trace (mkRequest "PUT" (request_action E (format st) path None)
                                       sb (content_type E (format st)))
                          (retry_interval st) (retries st)))).
Proof.
  intros Hs Hk. split; [|split].
  - intros call path Hin.
    repeat (destruct Hin as [H|Hin];
            [injection H as <- <-;
             cbv delta [show_extension show_mead show_mea show_vim show_event show_mesd
                        show_mes show_mecad show_meca get] beta;
             refine (api_retry_all_fail _ kw "GET" _ None (Some kw) None rs st
                       (plain_none _) eq_refl Hs _);
             refine (kwargs_free_sub _ _ kw _ Hk); intros x Hx; simpl in *; tauto
            |]).
    destruct Hin.
  - intros call path Hin.
    repeat (destruct Hin as [H|Hin];
            [injection H as <- <-;
             cbv delta [delete_mead delete_mea delete_vim delete_mesd delete_mes
                        delete_mecad delete_meca delete] beta;
             exact (api_retry_all_fail _ [] "DELETE" _ None None None rs st
                      (plain_none _) eq_refl Hs eq_refl)
            |]).
    destruct Hin.
  - intros Hp Hb call path Hin.
    repeat (destruct Hin as [H|Hin];
            [injection H as <- <-;
             cbv delta [update_mea update_vim update_mes update_meca put] beta;
             exact (api_retry_all_fail _ [] "PUT" _ (Some b) None sb rs st Hp Hb Hs eq_refl)
            |]).
    destruct Hin.
Qed.

Lemma post_plain_fail a b sb p st r rest :
  plain_body (format st) b -> json_request_body E b = Ok sb ->
  script st = TFail r :: rest ->
  post E a b p st
  = (Raised (ConnectionFailed r),
     called st (mkRequest "POST" (request_action E (format st) a p) sb
                  (content_type E (format st))) rest).
Proof.
  intros Hp Hb Hs. unfold post.
  rewrite (do_request_step "POST" a b p st _ _ _ _ (prepare_plain st a b p sb Hp Hb)).
  rewrite http_call, Hs. reflexivity.
Qed.

Lemma api_post_fail names a b sb st r rest :
  plain_body (format st) b -> json_request_body E b = Ok sb ->
  script st = TFail r :: rest ->
  api_call names [] (post E a b None) st
  = (Raised (ConnectionFailed r),
     called st (mkRequest "POST" (request_action E (format st) a None) sb
                  (content_type E (format st))) rest).
Proof.
  intros Hp Hb Hs. rewrite (api_call_run _ [] _ st eq_refl). change (call_state [] st) with st.
  rewrite (post_plain_fail a b sb None st r rest Hp Hb Hs). reflexivity.
Qed.

Lemma dict_set_cons {A} k (v : A) kvs : exists x l, dict_set k v kvs = x :: l.
Proof.
  destruct kvs as [|[k' v'] t]; simpl; [eauto|]. destruct (String.eqb k k'); eauto.
Qed.

(** The create methods and [scale_mea] go through [do_request] alone: a
    connection failure on their POST is raised at once, after one request
    and no sleep.  This holds in the JSON format, or when the body is
    falsy; otherwise the body is serialized after a metadata fetch.
    [create_mead], whose body has a ['mead'] entry, is shown in the JSON
    format, with the body it completes. *)
Theorem resource_posts_not_retried id b sb st r rest :
  script st = TFail r :: rest ->
  (plain_body (format st) (Some b) -> json_request_body E (Some b) = Ok sb ->
   forall call path,
    In (call, path) [(create_mea E b, "/meas"); (create_vim E b, "/vims");
                     (create_mesd E b, "/mesds"); (create_mes E b, "/mess");
                     (create_mecad E b, "/mecads"); (create_meca E b, "/mecas");
                     (scale_mea E id (Some b), "/meas/" ++ id ++ "/actions")] ->
    call st
    = (Raised (ConnectionFailed r),
       called st (mkRequest "POST" (request_action E (format st) path None) sb
                    (content_type E (format st))) rest))
  /\ (forall bkvs mkvs s,
      is_json (format st) = true -> b = VDict bkvs -> assoc "mead" bkvs = Some (VDict mkvs) ->
      serialize_to E "application/json" (VDict [])
        (VDict (dict_set "mead"
                  (VDict (dict_set "service_types"
                            (VList [VDict [("service_type", VStr "mead")]]) mkvs)) bkvs))
      = Ok s ->
      create_mead E b st
      = (Raised (ConnectionFailed r),
         called st (mkRequest "POST" (request_action E (format st) "/meads" None) (Some s)
                      "application/json") rest)).
Proof.
  intros Hs. split.
  - intros Hp Hb call path Hin.
    repeat (destruct Hin as [H|Hin];
            [injection H as <- <-; exact (api_post_fail _ _ (Some b) sb st r rest Hp Hb Hs)
            |]).
    destruct Hin.
  - intros bkvs mkvs s Hj -> Hm Hser.
    set (body' := VDict (dict_set "mead"
                           (VDict (dict_set "service_types"
                                     (VList [VDict [("service_type", VStr "mead")]]) mkvs))
                           bkvs)).
    assert (Hb : json_request_body E (Some body') = Ok (Some s)).
    { unfold json_request_body, body'.
      destruct (dict_set_cons "mead"
                  (VDict (dict_set "service_types"
                            (VList [VDict [("service_type", VStr "mead")]]) mkvs)) bkvs)
        as (x & l & Hd).
      rewrite Hd. simpl. rewrite <- Hd, Hser. reflexivity. }
    unfold create_mead. rewrite (api_call_run _ [] _ st eq_refl).
    change (call_state [] st) with st. cbv [bind lift ret]. unfold getitem. rewrite Hm.
    fold body'.
    rewrite (post_plain_fail "/meads" (Some body') (Some s) None st r rest (or_introl Hj) Hb Hs).
    rewrite (content_type_json _ Hj). reflexivity.
Qed.

End Proofs.

(** ** Witnesses *)

Lemma do_request_success_status_witness :
  let st := init_client 0 true [TResp 200 "OK" "[1]"] in
  let st2 := called st (mkRequest "GET" "/v1.0/meas.json" None "application/json") [] in
  prepare_request sample_env "/meas" None (Some []) st
    = (Ok ("/v1.0/meas.json", None, "application/json"), st)
  /\ script st = [TResp 200 "OK" "[1]"]
  /\ success_status 200 = true
  /\ (do_request sample_env "GET" "/meas" None (Some []) st
       = deserialize sample_env "[1]" 200 st2
     /\ (200%Z = 204%Z -> do_request sample_env "GET" "/meas" None (Some []) st
                          = (Ok (VStr "[1]"), st2))
     /\ (200%Z <> 204%Z -> is_json (format st) = true ->
         do_request sample_env "GET" "/meas" None (Some []) st
         = (match json_loads "[1]" with
            | Some v => Ok v
            | None => Raised (MalformedResponseBody "Cannot understand JSON")
            end, st2))).
Proof.
  intros st st2.
  assert (Hp : prepare_request sample_env "/meas" None (Some []) st
               = (Ok ("/v1.0/meas.json", None, "application/json"), st))
    by reflexivity.
  assert (Hs : script st = [TResp 200 "OK" "[1]"]) by reflexivity.
  assert (Hc : success_status 200 = true) by reflexivity.
  exact (conj Hp (conj Hs (conj Hc
           (do_request_success_status sample_env "GET" "/meas" None (Some []) st
              "/v1.0/meas.json" None "application/json" st 200 "OK" "[1]" [] Hp Hs Hc)))).
Defined.

Lemma do_request_error_status_witness :
  let st := init_client 0 true [TResp 503 "Service Unavailable" ""] in
  let st2 := called st (mkRequest "GET" "/v1.0/meas.json" None "application/json") [] in
  prepare_request sample_env "/meas" None (Some []) st
    = (Ok ("/v1.0/meas.json", None, "application/json"), st)
  /\ script st = [TResp 503 "Service Unavailable" ""]
  /\ success_status 503 = false
  /\ (do_request sample_env "GET" "/meas" None (Some []) st
       = handle_fault_response sample_env 503
           (if String.eqb "" "" then "Service Unavailable" else "") st2
     /\ exists e st', do_request sample_env "GET" "/meas" None (Some []) st = (Raised e, st')).
Proof.
  intros st st2.
  assert (Hp : prepare_request sample_env "/meas" None (Some []) st
               = (Ok ("/v1.0/meas.json", None, "application/json"), st))
    by reflexivity.
  assert (Hs : script st = [TResp 503 "Service Unavailable" ""]) by reflexivity.
  assert (Hc : success_status 503 = false) by reflexivity.
  exact (conj Hp (conj Hs (conj Hc
           (do_request_error_status sample_env "GET" "/meas" None (Some []) st
              "/v1.0/meas.json" None "application/json" st 503 "Service Unavailable" ""
              [] Hp Hs Hc)))).
Defined.


Lemma post_not_retried_witness :
  let st := init_client 3 true [TFail "down"] in
  let body := Some (VDict [("mea", VDict [])]) in
  let sb := Some (json_dumps (VDict [("mea", VDict [])])) in
  is_json (format st) = true
  /\ json_request_body sample_env body = Ok sb
  /\ script st = [TFail "down"]
  /\ post sample_env "/meas" body (Some []) st
     = (Raised (ConnectionFailed "down"),
        called st (mkRequest "POST" (request_action sample_env (format st) "/meas" (Some [])) sb
                     "application/json") [])
  /\ prepare_request sample_env "/meas" body (Some []) st
     = (Ok ("/v1.0/meas.json", sb, "application/json"), st)
  /\ post sample_env "/meas" body (Some []) st
     = (Raised (ConnectionFailed "down"),
        called st (mkRequest "POST" "/v1.0/meas.json" sb "application/json") []).
Proof.
  intros st body sb.
  assert (Hj : is_json (format st) = true) by reflexivity.
  assert (Hb : json_request_body sample_env body = Ok sb) by reflexivity.
  assert (Hs : script st = [TFail "down"]) by reflexivity.
  assert (Hp : prepare_request sample_env "/meas" body (Some []) st
               = (Ok ("/v1.0/meas.json", sb, "application/json"), st)) by reflexivity.
  exact (conj Hj (conj Hb (conj Hs
           (conj (proj2 (post_not_retried sample_env) "/meas" body (Some []) st sb "down" []
                    Hj Hb Hs)
           (conj Hp
              (proj1 (post_not_retried sample_env) "/meas" body (Some []) st
                 "/v1.0/meas.json" sb "application/json" st "down" [] Hp Hs)))))).
Defined.


Lemma list_all_stops_without_link_witness :
  let st := with_format (init_client 0 true (skipn 4 xml_pages_server)) (VStr "xml") in
  list_all sample_xml_env "events" "/events" [] st
  = (Ok (VDict [("events", VList [VInt 3])]),
     snd (get sample_xml_env "/events" None (Some []) st))
  /\ let p := sample_page [VStr "e1"; VStr "e2"] None in
     let jst := init_client 0 true [sample_answer p] in
     exists rq,
       list_all sample_env "events" "/events" [] jst
       = (Ok (VDict [("events", VList [VStr "e1"; VStr "e2"])]), called jst rq [])
       /\ rq_method rq = "GET".
Proof.
  intros st.
  split.
  - apply (proj1 (list_all_stops_without_link sample_xml_env "events" "/events" []) st
             (sample_page [VInt 3] None) [VInt 3]).
    + vm_compute. reflexivity.
    + reflexivity.
    + left. reflexivity.
  - intros p jst.
    assert (Hj : is_json (format jst) = true) by reflexivity.
    assert (Hs : script jst = [sample_answer p]) by reflexivity.
    assert (P : page_answer (sample_answer p) "events" p [VStr "e1"; VStr "e2"])
      by (exists 200%Z, "OK", (json_dumps p); vm_compute; repeat split; discriminate).
    assert (L : no_link_for p "events" (link_direction [])) by (left; reflexivity).
    exact (proj2 (list_all_stops_without_link sample_env "events" "/events" []) jst
             (sample_answer p) [] p [VStr "e1"; VStr "e2"] Hj Hs P L).
Defined.

Lemma classifier_apmec_error_404_witness :
  truthy VNull = false
  /\ exception_handler_v10 sample_env 404
       (VDict [("ApmecError", VDict [("type", VStr "MeaNotFound");
                                     ("message", VStr "MEA x not found");
                                     ("detail", VNull)])])
     = ClientExc "NotFound" 404 (VStr "MEA x not found").
Proof.
  assert (Hd : truthy VNull = false) by reflexivity.
  exact (conj Hd (proj2 (classifier_apmec_error_404 sample_env) VNull Hd)).
Defined.

Lemma do_request_500_text_bodies_witness :
  let st1 := init_client 0 true [TResp 500 "Internal Server Error" "internal error"] in
  let st2 := init_client 0 true
               [TResp 500 "Internal Server Error" (quoted "internal error")] in
  is_json (format st1) = true /\ json_request_body sample_env None = Ok None
  /\ script st1 = [TResp 500 "Internal Server Error" "internal error"]
  /\ fst (do_request sample_env "GET" "/meas" None (Some []) st1)
     = Raised (ApmecClientException 500 (VStr "internal error"))
  /\ is_json (format st2) = true
  /\ script st2 = [TResp 500 "Internal Server Error" (quoted "internal error")]
  /\ fst (do_request sample_env "GET" "/meas" None (Some []) st2)
     = Raised (ApmecClientException 500 (VStr "500-internal error")).
Proof.
  intros st1 st2.
  assert (Hj1 : is_json (format st1) = true) by reflexivity.
  assert (Hb : json_request_body sample_env None = Ok None) by reflexivity.
  assert (Hs1 : script st1 = [TResp 500 "Internal Server Error" "internal error"])
    by reflexivity.
  assert (Hj2 : is_json (format st2) = true) by reflexivity.
  assert (Hs2 : script st2 = [TResp 500 "Internal Server Error" (quoted "internal error")])
    by reflexivity.
  exact (conj Hj1 (conj Hb (conj Hs1
           (conj (proj1 (do_request_500_text_bodies sample_env "GET" "/meas" None (Some [])
                           st1 None "Internal Server Error" [] Hj1 Hb) Hs1)
           (conj Hj2 (conj Hs2
              (proj2 (do_request_500_text_bodies sample_env "GET" "/meas" None (Some [])
                        st2 None "Internal Server Error" [] Hj2 Hb) Hs2))))))).
Defined.

Lemma retry_exhausted_error_witness :
  let st := with_format (init_client 2 false []) (VStr "xml") in
  fst (retry_request sample_env "GET" "/meas" None (Some []) st)
  = Raised (ConnectionFailed "Failed to connect to Apmec server after 3 attempts").
Proof.
  intros st.
  exact (retry_exhausted_error sample_env "GET" "/meas" None (Some []) st "no response"
           ltac:(intros j Hj; exists "no response";
                 destruct j as [|[|j]];
                 [vm_compute; reflexivity | vm_compute; reflexivity | simpl in Hj; lia])
           ltac:(vm_compute; reflexivity)).
Defined.

(** ** Counterexamples *)

(** C1: a 200 answer whose body is not valid JSON makes [do_request]
    raise. *)
Lemma do_request_200_malformed_raises :
  fst (do_request sample_env "GET" "/meas" None (Some [])
         (init_client 0 true [TResp 200 "OK" "not json"]))
  = Raised (MalformedResponseBody "Cannot understand JSON").
Proof. vm_compute. reflexivity. Qed.



(** C6: in the XML format a single page without a next link takes two
    requests, the page and the metadata fetch of its deserialization, not
    one. *)
Lemma list_all_xml_one_page_two_requests :
  let r := list_all sample_xml_env "events" "/events" []
             (with_format (init_client 0 true (skipn 4 xml_pages_server)) (VStr "xml")) in
  fst r = Ok (VDict [("events", VList [VInt 3])])
  /\ map event_line (trace (snd r))
     = ["GET /v1.0/events.xml"; "GET /v1.0/extensions.json"].
Proof. vm_compute. split; reflexivity. Qed.

(** C4: a POST with a body in the XML format fetches the metadata first, and
    that GET is retried: with one retry, two failed attempts and no POST. *)
Lemma post_xml_body_metadata_retried :
  let st := with_format (init_client 1 true [TFail "a"; TFail "b"; TFail "c"]) (VStr "xml") in
  let r := post sample_env "/meas" (Some (VDict [("mea", VDict [])])) (Some []) st in
  fst r = Raised (ConnectionFailed "b")
  /\ map (fun e => match e with ESend rq => rq_method rq ++ " " ++ rq_url rq
                              | ESleep _ => "sleep" end) (trace (snd r))
     = ["GET /v1.0/extensions.json"; "sleep"; "GET /v1.0/extensions.json"].
Proof. vm_compute. split; reflexivity. Qed.

(** C7: the example body has no "detail" key, and the classifier raises with
    the ApmecError dict as message, not "MEA x not found". *)
Lemma classifier_404_without_detail :
  exception_handler_v10 sample_env 404
    (VDict [("ApmecError", VDict [("type", VStr "MeaNotFound");
                                  ("message", VStr "MEA x not found")])])
  = ApmecClientException 404
      (VDict [("type", VStr "MeaNotFound"); ("message", VStr "MEA x not found")])
  /\ VDict [("type", VStr "MeaNotFound"); ("message", VStr "MEA x not found")]
     <> VStr "MEA x not found".
Proof. split; [reflexivity | discriminate]. Qed.

(** C8: status 500 with the plain-text body "internal error" gives the
    message "internal error", not "500-internal error". *)
Lemma do_request_500_plain_text :
  fst (do_request sample_env "GET" "/meas" None (Some [])
         (init_client 0 true [TResp 500 "Internal Server Error" "internal error"]))
  = Raised (ApmecClientException 500 (VStr "internal error")).
Proof. vm_compute. reflexivity. Qed.

(** C9: with no retries and [raise_errors] unset, the message does not name
    the attempt count. *)
Lemma retry_zero_message_no_count :
  fst (get sample_env "/meas" None (Some []) (init_client 0 false []))
  = Raised (ConnectionFailed "Failed to connect Apmec server").
Proof. vm_compute. reflexivity. Qed.

(** C10: [list_extensions(format='xml')] whose metadata fetch (issued by
    [deserialize] in the XML format) fails raises with the format left at
    'json', not at the override 'xml'. *)
Lemma list_extensions_xml_failure_leaves_json :
  let r := list_extensions sample_env [("format", VStr "xml")]
             (init_client 0 true [TResp 200 "OK" "{}"; TFail "down"]) in
  fst r = Raised (ConnectionFailed "down") /\ format (snd r) = VStr "json".
Proof. vm_compute. split; reflexivity. Qed.

(** ** Instances of the properties of the resource methods and of the
    request machinery *)

Lemma classifier_detail_appended_witness :
  exception_handler_v10 sample_env 404
    (VDict [("ApmecError", VDict [("type", VStr "MeaNotFound"); ("message", VStr "m");
                                  ("detail", VStr "d")])])
  = ClientExc "NotFound" 404 (VStr ("m" ++ newline ++ "d")).
Proof.
  rewrite (classifier_detail_appended sample_env 404
             [("ApmecError", VDict [("type", VStr "MeaNotFound"); ("message", VStr "m");
                                    ("detail", VStr "d")])]
             [("type", VStr "MeaNotFound"); ("message", VStr "m"); ("detail", VStr "d")]
             (VStr "MeaNotFound") "m" "d" eq_refl eq_refl eq_refl eq_refl
             ltac:(discriminate)).
  reflexivity.
Defined.

Lemma classifier_bad_apmec_error_witness :
  exception_handler_v10 sample_env 409
    (VDict [("ApmecError", VDict [("type", VStr "InUse"); ("message", VStr "m")])])
  = ApmecClientException 409 (VDict [("type", VStr "InUse"); ("message", VStr "m")]).
Proof.
  apply (classifier_bad_apmec_error sample_env 409
           [("ApmecError", VDict [("type", VStr "InUse"); ("message", VStr "m")])]
           (VDict [("type", VStr "InUse"); ("message", VStr "m")]) eq_refl eq_refl).
  intros kvs Hk. injection Hk as <-. right. right. left. reflexivity.
Defined.

Lemma classifier_without_apmec_error_witness :
  exception_handler_v10 sample_env 500 (VStr "oops")
  = ApmecClientException 500 (VStr "500-oops")
  /\ exception_handler_v10 sample_env 400 (VDict [("message", VStr "bad")])
     = ApmecClientException 400 (VStr "bad").
Proof.
  split.
  - destruct (classifier_without_apmec_error sample_env 500 (VStr "oops")) as [H _].
    apply H. intros kvs. discriminate.
  - destruct (classifier_without_apmec_error sample_env 400 (VDict [("message", VStr "bad")]))
      as [_ H].
    apply (H _ (VStr "bad") eq_refl); [|reflexivity|reflexivity].
    intros ed Hed. discriminate.
Defined.

Lemma do_request_body_not_dict_witness :
  do_request sample_env "POST" "/meas" (Some (VList [VInt 1])) None
    (init_client 0 false [])
  = (Raised (SerializeError "list"), init_client 0 false []).
Proof.
  apply (do_request_body_not_dict sample_env "POST" "/meas" (VList [VInt 1]) None
           (init_client 0 false []) eq_refl).
  intros kvs. discriminate.
Defined.

Lemma do_request_falsy_body_witness :
  do_request sample_env "PUT" "/meas/x" (Some (VDict [])) None
    (init_client 0 false [TFail "down"])
  = do_request sample_env "PUT" "/meas/x" None None (init_client 0 false [TFail "down"]).
Proof.
  apply (do_request_falsy_body sample_env "PUT" "/meas/x" (VDict []) None
           (init_client 0 false [TFail "down"]) eq_refl).
Defined.

Lemma retry_request_other_errors_witness :
  let st := init_client 2 false [TResp 404 "Not Found" ""] in
  retry_request sample_env "GET" "/meas/x" None None st
  = (Raised (ApmecClientException 404 (VStr "Not Found")),
     called st (mkRequest "GET" "/v1.0/meas/x.json" None "application/json") []).
Proof.
  intros st. apply retry_request_other_errors.
  - vm_compute. reflexivity.
  - intros r. discriminate.
Defined.

Lemma retry_request_recovers_witness :
  let st := init_client 2 false [TFail "a"; TResp 200 "OK" "{}"] in
  let rq := mkRequest "GET" "/v1.0/meas/x.json" None "application/json" in
  retry_request sample_env "GET" "/meas/x" None None st
  = (Ok (VDict []), mkClient (VStr "json") 2 false 1 [] [ESend rq; ESleep 1; ESend rq]).
Proof.
  intros st rq.
  rewrite (retry_request_recovers sample_env "GET" "/meas/x" None None st None ["a"]
             200 "OK" "{}" [] (VDict []) eq_refl eq_refl eq_refl ltac:(simpl; lia)
             eq_refl ltac:(discriminate) eq_refl).
  reflexivity.
Defined.



Lemma list_all_stops_at_incomplete_link_witness :
  let p := VDict [("events", VList [VInt 1]);
                  ("events_links", VList [VDict [("rel", VStr "next")]])] in
  let st := init_client 0 false [sample_answer p; TFail "unused"] in
  list_all sample_env "events" "/events" [] st
  = (Ok (VDict [("events", VList [VInt 1])]),
     snd (get sample_env "/events" None (Some []) st)).
Proof.
  intros p st.
  apply (list_all_stops_at_incomplete_link sample_env "events" "/events" [] st p [VInt 1]
           (snd (get sample_env "/events" None (Some []) st)) [] [("rel", VStr "next")] []).
  - vm_compute. reflexivity.
  - reflexivity.
  - reflexivity.
  - constructor.
  - right. split; reflexivity.
Defined.

Lemma list_all_page_without_collection_witness :
  let p := VDict [("meas", VList [])] in
  let st := init_client 0 false [sample_answer p] in
  list_all sample_env "events" "/events" [] st
  = (Raised (KeyError "events"), snd (get sample_env "/events" None (Some []) st)).
Proof.
  intros p st.
  destruct (list_all_page_without_collection sample_env "events" "/events" [] st p
              (snd (get sample_env "/events" None (Some []) st))
              ltac:(vm_compute; reflexivity)
              ltac:(intros kvs Hk; injection Hk as <-; reflexivity))
    as (e & H & He).
  rewrite H, (He _ eq_refl). reflexivity.
Defined.

Lemma list_meads_truncates_witness :
  let kw := [("format", VStr "json")] in
  let st := with_format (init_client 0 false [sample_answer meads_page]) (VStr "xml") in
  fst (list_meads sample_env true kw st)
  = Ok (VDict [("meads", VList [VDict [("description",
                                        VStr "abcdefghijklmnopqrstuvwxy...")];
                                VDict [("description", VNull)]])])
  /\ format (snd (list_meads sample_env true kw st)) = VStr "xml".
Proof.
  intros kw st.
  destruct (list_meads_truncates sample_env kw st
              [VDict [("description", VStr long_desc)]; VDict [("description", VNull)]]
              (snd (list_all sample_env "meads" "/meads" kw (call_state kw st))) eq_refl
              ltac:(vm_compute; reflexivity)) as [H _].
  - repeat constructor.
    + eexists. split; [reflexivity|]. intros v Hv. injection Hv as <-. right. eauto.
    + eexists. split; [reflexivity|]. intros v Hv. injection Hv as <-. left. reflexivity.
  - rewrite H. split; reflexivity.
Defined.



Lemma list_without_retrieve_all_witness :
  let st := init_client 0 false [] in
  list_mea_events sample_env false [] st
  = (Raised (TypeError "'generator' object is not subscriptable"), st)
  /\ list_vims sample_env false [] st = (Ok (LGenerator "vims" "/vims" []), st).
Proof.
  intros st.
  destruct (list_without_retrieve_all sample_env [] st eq_refl) as (H1 & H2 & _).
  split.
  - apply H1. simpl. tauto.
  - exact H2.
Defined.


Lemma create_mead_service_types_witness :
  let st := init_client 0 false [TFail "down"] in
  create_mead sample_env (VDict [("mead", VDict [("name", VStr "m1")])]) st
  = match post sample_env "/meads"
            (Some (VDict [("mead", VDict [("name", VStr "m1");
                                          ("service_types",
                                           VList [VDict [("service_type", VStr "mead")]])])]))
            None st with
    | (Ok v, st1) => (Ok v, with_format st1 (format st))
    | (Raised e, st1) => (Raised e, st1)
    end
  /\ create_mead sample_env (VDict [("name", VStr "m1")]) st = (Raised (KeyError "mead"), st).
Proof.
  intros st.
  destruct (create_mead_service_types sample_env
              (VDict [("mead", VDict [("name", VStr "m1")])]) st) as [H _].
  destruct (create_mead_service_types sample_env (VDict [("name", VStr "m1")]) st)
    as [_ H'].
  split.
  - exact (H _ _ eq_refl eq_refl).
  - exact (H' _ eq_refl).
Defined.

Lemma resource_calls_retried_witness :
  let b := VDict [("mea", VDict [])] in
  let kw := [("format", VStr "xml")] in
  let st := init_client 1 false (map TFail ["a"; "b"; "c"]) in
  show_mea sample_env "x" kw st
  = (Raised (ConnectionFailed (retry_failure_msg 1)),
     mkClient (VStr "xml") 1 false 1 (map TFail ["c"])
       (trace st ++ retry_trace (mkRequest "GET"
                                   (request_action sample_env (VStr "xml") "/meas/x" (Some kw))
                                   None "application/xml") 1 1))
  /\ update_mea sample_env "x" b st
     = (Raised (ConnectionFailed (retry_failure_msg 1)),
        mkClient (VStr "json") 1 false 1 (map TFail ["c"])
          (trace st ++ retry_trace (mkRequest "PUT"
                                      (request_action sample_env (format st) "/meas/x" None)
                                      (Some (json_dumps b)) "application/json") 1 1)).
Proof.
  intros b kw st.
  destruct (resource_calls_retried sample_env "x" b (Some (json_dumps b)) kw st
              ["a"; "b"; "c"] eq_refl eq_refl) as (Hshow & _ & Hupd).
  split.
  - exact (Hshow (show_mea sample_env "x" kw) ("/meas/" ++ "x")
             ltac:(do 2 right; left; reflexivity)).
  - exact (Hupd (or_introl eq_refl) eq_refl (update_mea sample_env "x" b) ("/meas/" ++ "x")
             ltac:(left; reflexivity)).
Defined.

Lemma resource_posts_not_retried_witness :
  let b := VDict [("scale", VDict [("type", VStr "out")])] in
  let mb := VDict [("mead", VDict [("name", VStr "m1")])] in
  let st := init_client 3 false [TFail "down"] in
  scale_mea sample_env "x" (Some b) st
  = (Raised (ConnectionFailed "down"),
     called st (mkRequest "POST" (request_action sample_env (format st) "/meas/x/actions" None)
                  (Some (json_dumps b)) "application/json") [])
  /\ create_mead sample_env mb st
     = (Raised (ConnectionFailed "down"),
        called st (mkRequest "POST" (request_action sample_env (format st) "/meads" None)
                     (Some (json_dumps
                              (VDict [("mead", VDict [("name", VStr "m1");
                                                      ("service_types",
                                                       VList [VDict [("service_type",
                                                                      VStr "mead")]])])])))
                     "application/json") []).
Proof.
  intros b mb st.
  split.
  - exact (proj1 (resource_posts_not_retried sample_env "x" b (Some (json_dumps b)) st "down" []
                    eq_refl)
             (or_introl eq_refl) eq_refl (scale_mea sample_env "x" (Some b)) "/meas/x/actions"
             ltac:(do 6 right; left; reflexivity)).
  - exact (proj2 (resource_posts_not_retried sample_env "x" mb None st "down" [] eq_refl)
             [("mead", VDict [("name", VStr "m1")])] [("name", VStr "m1")]
             (json_dumps (VDict [("mead", VDict [("name", VStr "m1");
                                                 ("service_types",
                                                  VList [VDict [("service_type",
                                                                 VStr "mead")]])])]))
             eq_refl eq_refl eq_refl ltac:(vm_compute; reflexivity)).
Defined.
